(** * Holter hybrid system: windowed motion-adaptive wavelet denoising

    A shallow embedding of [python/holter_hybrid_system.py].

    Numbers.  The program computes on float64 values; here they are exact
    rationals ([Q]), so rounding, NaN and infinities are outside the model.
    The functions of PyWavelets and the transcendental functions of NumPy
    are not part of the repository: they are taken as the fields of a
    record [PyLib], and every statement says which contract of the library
    it relies on.  NumPy's order statistics (sort, median, percentile, mean
    of a mask, edge padding) are written out.

    Effects.  The two CSV files are the lists of rows appended to them, the
    queue is the list of its pending items, the console is the list of the
    lines printed.  A Python exception is [None]. *)

From Stdlib Require Import Bool String Ascii.
From Stdlib Require Import List Arith ZArith QArith Qabs Qround Qpower.
From Stdlib Require Import Lia Lqa.
From Stdlib Require Import Sorted Permutation.
Import ListNotations.

Local Open Scope Q_scope.

(** ** Configuration ([class HolterConfig]) *)

Module HolterConfig.

Definition SAMPLE_RATE : nat := 100.
Definition WAVELET_TYPE : string := "db4".
Definition DECOMPOSITION_LEVEL : nat := 5.
Definition WINDOW_SIZE : nat := 500.
Definition OVERLAP : nat := 250.
Definition ACC_THRESHOLD_PERCENTILE : Q := 75.
Definition THRESHOLD_MULTIPLIER_HIGH_MOTION : Q := 5 # 2.
Definition THRESHOLD_MULTIPLIER_LOW_MOTION : Q := 1.

End HolterConfig.

(** ** Option as the exception monad *)

Definition bind {A B : Type} (m : option A) (k : A -> option B) : option B :=
  match m with
  | Some a => k a
  | None => None
  end.

Notation "x <- m ;; k" := (bind m (fun x => k))
  (at level 61, m at next level, right associativity).

(** ** Python sequences *)

(** [l[i]] for [0 <= i], an [IndexError] out of range. *)
Definition py_index {A : Type} (l : list A) (i : nat) : option A :=
  nth_error l i.

(** [l[-1]]. *)
Definition py_last {A : Type} (l : list A) : option A :=
  match l with
  | [] => None
  | _ :: _ => nth_error l (length l - 1)
  end.

(** [l[-k:]]: the last [k] entries, the whole list when it is shorter, and
    the whole list as well for [k = 0], since [-0] is [0]. *)
Definition py_tail_slice {A : Type} (k : nat) (l : list A) : list A :=
  match k with
  | O => l
  | S _ => skipn (length l - k) l
  end.

(** ** NumPy on rationals *)

(** [np.sort]: the data in ascending order. *)
Fixpoint insert_sorted (x : Q) (l : list Q) : list Q :=
  match l with
  | [] => [x]
  | y :: l' => if Qle_bool x y then x :: l else y :: insert_sorted x l'
  end.

Definition np_sort (a : list Q) : list Q := fold_right insert_sorted [] a.

Definition np_abs (a : list Q) : list Q := map Qabs a.

(** [a > b] on floats. *)
Definition Qgtb (a b : Q) : bool := negb (Qle_bool a b).

(** [np.median]: the middle entry of the sorted data, the mean of the two
    middle entries for an even length.  NumPy gives NaN on empty data; the
    model gives 0 there. *)
Definition np_median (a : list Q) : Q :=
  let s := np_sort a in
  let n := length s in
  if Nat.even n
  then (nth (n / 2 - 1) s 0 + nth (n / 2) s 0) / 2
  else nth (n / 2) s 0.

(** [np.mean] of a boolean mask: the fraction of [True] entries.  NumPy gives
    NaN on an empty mask, and every comparison with NaN is false; the model
    gives 0, whose comparison [> 0.3] is false as well. *)
Definition np_mean_mask (mask : list bool) : Q :=
  inject_Z (Z.of_nat (count_occ bool_dec mask true))
  / inject_Z (Z.of_nat (length mask)).

(** NumPy's [_lerp]. *)
Definition np_lerp (a b t : Q) : Q :=
  if Qle_bool (1 # 2) t
  then b - (b - a) * (1 - t)
  else a + (b - a) * t.

(** [np.percentile(a, q)] with the default linear method: the virtual index
    is [q/100 * (n-1)], the result interpolates between its two neighbours in
    the sorted data.  [None] where NumPy raises ([q] outside [0, 100]) or has
    no number to give (empty data). *)
Definition np_percentile (a : list Q) (q : Q) : option Q :=
  let n := length a in
  if orb (Qgtb 0 q) (Qgtb q 100) then None
  else match n with
  | O => None
  | S m =>
      let s := np_sort a in
      let virtual_index := (q / 100) * inject_Z (Z.of_nat m) in
      let previous := Z.to_nat (Qfloor virtual_index) in
      let next := Nat.min (S previous) m in
      let gamma := virtual_index - inject_Z (Qfloor virtual_index) in
      Some (np_lerp (nth previous s 0) (nth next s 0) gamma)
  end.

(** [np.pad(a, (0, k), 'edge')] for [k > 0]: NumPy refuses to extend an
    empty axis in this mode. *)
Definition np_pad_edge (a : list Q) (k : nat) : option (list Q) :=
  e <- py_last a ;; Some (a ++ repeat e k).

(** ** The external libraries *)

Inductive ThresholdMode : Type := soft | hard | garrote | greater | less.

Record PyLib : Type := {
  pywt_wavedec : list Q -> string -> nat -> list (list Q);
  pywt_waverec : list (list Q) -> string -> list Q;
  pywt_threshold : list Q -> Q -> ThresholdMode -> list Q;
  np_sqrt : Q -> Q;
  np_log : Q -> Q
}.

(** ** Wavelet processing functions *)

Definition detect_motion_segments (acc_magnitude : list Q) (threshold : Q)
  : list bool :=
  map (fun a => Qgtb a threshold) acc_magnitude.

Section Filter.

Variable lib : PyLib.

Definition apply_wavelet_thresholding
  (coeffs : list Q) (threshold_value : Q) (mode : ThresholdMode) : list Q :=
  pywt_threshold lib coeffs threshold_value mode.

(** Lines 77-78: the MAD estimate of the noise and the universal threshold. *)
Definition noise_sigma (finest : list Q) : Q :=
  np_median (np_abs finest) / (6745 # 10000).

Definition threshold_base_of (finest : list Q) (n : nat) : Q :=
  noise_sigma finest * np_sqrt lib (2 * np_log lib (inject_Z (Z.of_nat n))).

(** Line 85. *)
Definition level_factor (ncoeffs i : nat) : Q :=
  Qpower (3 # 2) (Z.of_nat (ncoeffs - i)).

(** Line 88: the test that selects the multiplier. *)
Definition high_motion (motion_mask : list bool) : bool :=
  Qgtb (np_mean_mask motion_mask) (3 # 10).

Definition motion_multiplier (motion_mask : list bool) : Q :=
  if high_motion motion_mask
  then HolterConfig.THRESHOLD_MULTIPLIER_HIGH_MOTION
  else HolterConfig.THRESHOLD_MULTIPLIER_LOW_MOTION.

(** Lines 88-91: the threshold of band [i] of [ncoeffs] coefficient arrays. *)
Definition band_threshold
  (threshold_base : Q) (motion_mask : list bool) (ncoeffs i : nat) : Q :=
  if high_motion motion_mask
  then threshold_base * HolterConfig.THRESHOLD_MULTIPLIER_HIGH_MOTION
       * level_factor ncoeffs i
  else threshold_base * HolterConfig.THRESHOLD_MULTIPLIER_LOW_MOTION
       * level_factor ncoeffs i.

(** Lines 83-94: the body of the loop, for [i] in [range(1, len(coeffs))]. *)
Definition filter_band
  (coeffs : list (list Q)) (threshold_base : Q) (motion_mask : list bool)
  (i : nat) : list Q :=
  let detail_coeffs := nth i coeffs [] in
  apply_wavelet_thresholding detail_coeffs
    (band_threshold threshold_base motion_mask (length coeffs) i) soft.

(** Lines 74-94: the coefficient set handed to the reconstruction. *)
Definition filtered_coeffs
  (ecg_signal : list Q) (motion_mask : list bool) (wavelet : string)
  (level : nat) : option (list (list Q)) :=
  let coeffs := pywt_wavedec lib ecg_signal wavelet level in
  finest <- py_last coeffs ;;
  let threshold_base := threshold_base_of finest (length ecg_signal) in
  approximation <- py_index coeffs 0 ;;
  Some (approximation
        :: map (filter_band coeffs threshold_base motion_mask)
               (seq 1 (length coeffs - 1))).

(** Lines 99-103: truncate or pad the reconstruction to [n] samples. *)
Definition adjust_length (ecg_filtered : list Q) (n : nat) : option (list Q) :=
  if (n <? length ecg_filtered)%nat then Some (firstn n ecg_filtered)
  else if (length ecg_filtered <? n)%nat
       then np_pad_edge ecg_filtered (n - length ecg_filtered)
       else Some ecg_filtered.

Definition adaptive_wavelet_filter
  (ecg_signal : list Q) (motion_mask : list bool) (wavelet : string)
  (level : nat) : option (list Q) :=
  coeffs_filtered <- filtered_coeffs ecg_signal motion_mask wavelet level ;;
  let ecg_filtered := pywt_waverec lib coeffs_filtered wavelet in
  adjust_length ecg_filtered (length ecg_signal).

End Filter.

(** ** The real-time wavelet processor ([class WaveletProcessor]) *)

(** A line of [filtered_data.csv]:
    [timestamp, ECG_I_filt, ECG_II_filt, ECG_III_filt]. *)
Definition FilteredLine : Type := (Q * Q * Q * Q)%type.

Definition line_timestamp (r : FilteredLine) : Q :=
  let '(t, _, _, _) := r in t.

Record WaveletProcessor : Type := {
  timestamp_buffer : list Q;
  ecg_I_buffer : list Q;
  ecg_II_buffer : list Q;
  ecg_III_buffer : list Q;
  acc_mag_buffer : list Q;
  acc_threshold : option Q;
  raw_csv : list (list Q);
  filtered_csv : list FilteredLine
}.

(** [__init__]: empty buffers, no threshold yet, two files with headers only. *)
Definition WaveletProcessor_init : WaveletProcessor :=
  {| timestamp_buffer := []; ecg_I_buffer := []; ecg_II_buffer := [];
     ecg_III_buffer := []; acc_mag_buffer := []; acc_threshold := None;
     raw_csv := []; filtered_csv := [] |}.

Definition _save_raw_sample (self : WaveletProcessor) (data : list Q)
  : WaveletProcessor :=
  {| timestamp_buffer := timestamp_buffer self;
     ecg_I_buffer := ecg_I_buffer self;
     ecg_II_buffer := ecg_II_buffer self;
     ecg_III_buffer := ecg_III_buffer self;
     acc_mag_buffer := acc_mag_buffer self;
     acc_threshold := acc_threshold self;
     raw_csv := raw_csv self ++ [data];
     filtered_csv := filtered_csv self |}.

(** Lines 219-223: one entry more at the end of each of the five buffers. *)
Definition append_sample (self : WaveletProcessor)
  (timestamp ecg_I ecg_II ecg_III acc_mag : Q) : WaveletProcessor :=
  {| timestamp_buffer := timestamp_buffer self ++ [timestamp];
     ecg_I_buffer := ecg_I_buffer self ++ [ecg_I];
     ecg_II_buffer := ecg_II_buffer self ++ [ecg_II];
     ecg_III_buffer := ecg_III_buffer self ++ [ecg_III];
     acc_mag_buffer := acc_mag_buffer self ++ [acc_mag];
     acc_threshold := acc_threshold self;
     raw_csv := raw_csv self;
     filtered_csv := filtered_csv self |}.

(** Line 226. *)
Definition is_full (self : WaveletProcessor) : bool :=
  (HolterConfig.WINDOW_SIZE <=? length (ecg_I_buffer self))%nat.

(** Lines 230-234: every buffer keeps its last [OVERLAP] entries. *)
Definition slide (self : WaveletProcessor) : WaveletProcessor :=
  {| timestamp_buffer := py_tail_slice HolterConfig.OVERLAP (timestamp_buffer self);
     ecg_I_buffer := py_tail_slice HolterConfig.OVERLAP (ecg_I_buffer self);
     ecg_II_buffer := py_tail_slice HolterConfig.OVERLAP (ecg_II_buffer self);
     ecg_III_buffer := py_tail_slice HolterConfig.OVERLAP (ecg_III_buffer self);
     acc_mag_buffer := py_tail_slice HolterConfig.OVERLAP (acc_mag_buffer self);
     acc_threshold := acc_threshold self;
     raw_csv := raw_csv self;
     filtered_csv := filtered_csv self |}.

Fixpoint mapM {A B : Type} (f : A -> option B) (l : list A) : option (list B) :=
  match l with
  | [] => Some []
  | a :: l' => b <- f a ;; bs <- mapM f l' ;; Some (b :: bs)
  end.

(** Line 276: the line written for index [i]. *)
Definition filtered_line
  (timestamps ecg_I_filt ecg_II_filt ecg_III_filt : list Q) (i : nat)
  : option FilteredLine :=
  t <- py_index timestamps i ;;
  f1 <- py_index ecg_I_filt i ;;
  f2 <- py_index ecg_II_filt i ;;
  f3 <- py_index ecg_III_filt i ;;
  Some (t, f1, f2, f3).

(** Lines 275-278: the lines written for [i] in [range(n_new_samples)]. *)
Definition new_lines
  (timestamps ecg_I_filt ecg_II_filt ecg_III_filt : list Q)
  (n_new_samples : nat) : option (list FilteredLine) :=
  mapM (filtered_line timestamps ecg_I_filt ecg_II_filt ecg_III_filt)
       (seq 0 n_new_samples).

(** Lines 253-254: the threshold is computed only while it is [None]. *)
Definition calibrate (self : WaveletProcessor) (acc_mag : list Q) : option Q :=
  match acc_threshold self with
  | None => np_percentile acc_mag HolterConfig.ACC_THRESHOLD_PERCENTILE
  | Some threshold => Some threshold
  end.

Section Processor.

Variable lib : PyLib.

(** What [_process_window] computes on the buffers: the threshold in force
    and the lines it writes. *)
Definition window_output (self : WaveletProcessor)
  : option (Q * list FilteredLine) :=
  let timestamps := timestamp_buffer self in
  let ecg_I := ecg_I_buffer self in
  let ecg_II := ecg_II_buffer self in
  let ecg_III := ecg_III_buffer self in
  let acc_mag := acc_mag_buffer self in
  threshold <- calibrate self acc_mag ;;
  let motion_mask := detect_motion_segments acc_mag threshold in
  ecg_I_filt <- adaptive_wavelet_filter lib ecg_I motion_mask
                  HolterConfig.WAVELET_TYPE HolterConfig.DECOMPOSITION_LEVEL ;;
  ecg_II_filt <- adaptive_wavelet_filter lib ecg_II motion_mask
                  HolterConfig.WAVELET_TYPE HolterConfig.DECOMPOSITION_LEVEL ;;
  ecg_III_filt <- adaptive_wavelet_filter lib ecg_III motion_mask
                  HolterConfig.WAVELET_TYPE HolterConfig.DECOMPOSITION_LEVEL ;;
  let n_new_samples := (length timestamps - HolterConfig.OVERLAP)%nat in
  lines <- new_lines timestamps ecg_I_filt ecg_II_filt ecg_III_filt
             n_new_samples ;;
  Some (threshold, lines).

Definition _process_window (self : WaveletProcessor) : option WaveletProcessor :=
  out <- window_output self ;;
  Some {| timestamp_buffer := timestamp_buffer self;
          ecg_I_buffer := ecg_I_buffer self;
          ecg_II_buffer := ecg_II_buffer self;
          ecg_III_buffer := ecg_III_buffer self;
          acc_mag_buffer := acc_mag_buffer self;
          acc_threshold := Some (fst out);
          raw_csv := raw_csv self;
          filtered_csv := filtered_csv self ++ snd out |}.

(** [process_sample]: [data] is the list taken from the queue; unpacking it
    into eight names fails for any other length. *)
Definition process_sample (self : WaveletProcessor) (data : list Q)
  : option WaveletProcessor :=
  let self := _save_raw_sample self data in
  match data with
  | [timestamp; ecg_I; ecg_II; ecg_III; acc_x; acc_y; acc_z; acc_mag] =>
      let self := append_sample self timestamp ecg_I ecg_II ecg_III acc_mag in
      if is_full self
      then self <- _process_window self ;; Some (slide self)
      else Some self
  | _ => None
  end.

(** The processing loop on the items taken from the queue, in order. *)
Fixpoint process_all (self : WaveletProcessor) (items : list (list Q))
  : option WaveletProcessor :=
  match items with
  | [] => Some self
  | data :: rest => self' <- process_sample self data ;; process_all self' rest
  end.

(** The states of a session: the fresh processor and whatever successful
    calls of [process_sample] lead to. *)
Inductive reachable : WaveletProcessor -> Prop :=
| reachable_init : reachable WaveletProcessor_init
| reachable_step : forall self data self',
    reachable self -> process_sample self data = Some self' ->
    reachable self'.

End Processor.

(** ** The UDP receiver ([class UDPReceiver]) *)

Inductive ConsoleLine : Type :=
| SystemLine (message : string)      (* [SYSTEM] message *)
| WarningLine (message : string).    (* [WARNING] Datos invalidos recibidos *)

Record UDPReceiver : Type := {
  data_queue : list (list Q);
  console : list ConsoleLine
}.

(** The characters [str.strip] removes, among the ASCII ones. *)
Definition is_space (c : ascii) : bool :=
  let n := nat_of_ascii c in
  orb (andb (9 <=? n)%nat (n <=? 13)%nat)
      (andb (28 <=? n)%nat (n <=? 32)%nat).

Fixpoint lstrip (s : string) : string :=
  match s with
  | EmptyString => EmptyString
  | String c rest => if is_space c then lstrip rest else s
  end.

Fixpoint rstrip (s : string) : string :=
  match s with
  | EmptyString => EmptyString
  | String c rest =>
      match rstrip rest with
      | EmptyString => if is_space c then EmptyString else String c EmptyString
      | kept => String c kept
      end
  end.

Definition strip (s : string) : string := rstrip (lstrip s).

(** [s.split(',')]: never empty, one field more than there are commas. *)
Fixpoint split_comma (s : string) : list string :=
  match s with
  | EmptyString => [EmptyString]
  | String c rest =>
      if Ascii.eqb c ","%char then EmptyString :: split_comma rest
      else match split_comma rest with
           | [] => [String c EmptyString]
           | field :: fields => String c field :: fields
           end
  end.

Definition startswith (s p : string) : bool := prefix p s.

Section Receiver.

(** Python's [float] on a string: [None] is [ValueError]. *)
Variable py_float : string -> option Q.

(** Line 143: the list comprehension stops at the first field [float]
    rejects. *)
Definition parse_values (message : string) : option (list Q) :=
  mapM py_float (split_comma message).

(** One turn of [_receive_loop] on a datagram that decoded to [decoded]. *)
Definition receive_message (self : UDPReceiver) (decoded : string)
  : UDPReceiver :=
  let message := strip decoded in
  if orb (startswith message "ERROR") (startswith message "SYSTEM")
  then {| data_queue := data_queue self;
          console := console self ++ [SystemLine message] |}
  else match parse_values message with
       | Some values =>
           if (length values =? 8)%nat
           then {| data_queue := data_queue self ++ [values];
                   console := console self |}
           else self
       | None =>
           {| data_queue := data_queue self;
              console := console self ++ [WarningLine message] |}
       end.

End Receiver.

(** ** Executable stand-ins for the libraries

    To run the model on concrete windows the library record needs an
    inhabitant.  [HaarLib.lib] is a small one: the Haar transform with the
    last sample repeated on odd lengths, PyWavelets' thresholding rules, and
    coarse rational approximations of the square root and of the logarithm
    (no statement depends on how close they are).  Like
    PyWavelets it returns [level + 1] coefficient arrays, maps a zero signal
    to zero coefficients and reconstructs one sample too many from an odd
    length. *)

Module HaarLib.

Fixpoint dwt (s : list Q) : list Q * list Q :=
  match s with
  | [] => ([], [])
  | [a] => ([a], [0])
  | a :: b :: rest =>
      let (cA, cD) := dwt rest in ((a + b) / 2 :: cA, (a - b) / 2 :: cD)
  end.

Fixpoint wavedec_from (a : list Q) (level : nat) (details : list (list Q))
  : list (list Q) :=
  match level with
  | O => a :: details
  | S level' => let (cA, cD) := dwt a in wavedec_from cA level' (cD :: details)
  end.

Definition wavedec (data : list Q) (wavelet : string) (level : nat)
  : list (list Q) :=
  wavedec_from data level [].

Fixpoint idwt (cA cD : list Q) : list Q :=
  match cA, cD with
  | a :: cA', d :: cD' => (a + d) :: (a - d) :: idwt cA' cD'
  | _, _ => []
  end.

Definition waverec (coeffs : list (list Q)) (wavelet : string) : list Q :=
  match coeffs with
  | [] => []
  | a :: ds => fold_left idwt ds a
  end.

Definition threshold1 (mode : ThresholdMode) (value x : Q) : Q :=
  match mode with
  | soft => if Qle_bool (Qabs x) value then 0 else x * (1 - value / Qabs x)
  | hard => if Qle_bool value (Qabs x) then x else 0
  | garrote =>
      if Qle_bool (Qabs x) value then 0 else x * (1 - (value * value) / (x * x))
  | greater => if Qle_bool value x then x else 0
  | less => if Qle_bool x value then x else 0
  end.

Definition threshold (data : list Q) (value : Q) (mode : ThresholdMode)
  : list Q :=
  map (fun x => Qred (threshold1 mode value x)) data.

(** Fixed-point rounding to six decimals keeps the numbers small. *)
Definition round6 (x : Q) : Q := Qfloor (x * 1000000) # 1000000.

Definition sqrt (x : Q) : Q :=
  if Qle_bool x 0 then 0
  else Z.sqrt (Qfloor (x * 1000000000000)) # 1000000.

Fixpoint atanh_series (z zpow : Q) (k terms : nat) : Q :=
  match terms with
  | O => 0
  | S t =>
      Qred (zpow / inject_Z (Z.of_nat (2 * k + 1))
            + atanh_series z (round6 (zpow * z * z)) (S k) t)
  end.

(** [ln m] for [m] near 1, then [ln x = k ln 2 + ln (x / 2^k)]. *)
Definition log1 (m : Q) : Q :=
  let z := round6 ((m - 1) / (m + 1)) in 2 * atanh_series z z 0 8.

Definition log_ge1 (x : Q) : Q :=
  let k := Z.log2 (Qfloor x) in
  round6 (inject_Z k * (693147 # 1000000) + log1 (x / inject_Z (2 ^ k))).

Definition log (x : Q) : Q :=
  if Qle_bool x 0 then 0
  else if Qle_bool 1 x then log_ge1 x
  else - log_ge1 (/ x).

Definition lib : PyLib :=
  {| pywt_wavedec := wavedec;
     pywt_waverec := waverec;
     pywt_threshold := threshold;
     np_sqrt := sqrt;
     np_log := log |}.

(** [float] restricted to plain decimal literals: an optional sign, digits
    and at most one point, with surrounding white space ignored. *)
Definition digit_of (c : ascii) : option Z :=
  let n := nat_of_ascii c in
  if andb (48 <=? n)%nat (n <=? 57)%nat
  then Some (Z.of_nat (n - 48))
  else None.

Fixpoint decimal_body (s : string) (seen_point : bool) (num : Z)
  (den : positive) (ndigits : nat) : option Q :=
  match s with
  | EmptyString => if (ndigits =? 0)%nat then None else Some (num # den)
  | String c rest =>
      if Ascii.eqb c "."%char
      then if seen_point then None
           else decimal_body rest true num den ndigits
      else match digit_of c with
           | Some d =>
               decimal_body rest seen_point (10 * num + d)
                 (if seen_point then (10 * den)%positive else den) (S ndigits)
           | None => None
           end
  end.

Definition float (s : string) : option Q :=
  match strip s with
  | String "-"%char rest => option_map Qopp (decimal_body rest false 0%Z 1%positive 0%nat)
  | String "+"%char rest => decimal_body rest false 0%Z 1%positive 0%nat
  | body => decimal_body body false 0%Z 1%positive 0%nat
  end.

End HaarLib.

(** Concrete data for the examples: a first window of 500 samples with
    timestamps 0..499 and everything else at rest. *)
Definition sample_at (t : nat) : list Q :=
  [inject_Z (Z.of_nat t); 0; 0; 0; 0; 0; 0; 0].

Definition samples_from (start count : nat) : list (list Q) :=
  map sample_at (seq start count).

Definition timestamps_from (start count : nat) : list Q :=
  map (fun t => inject_Z (Z.of_nat t)) (seq start count).

(** The processor after the first [count] of these samples. *)
Definition run_from_start (lib : PyLib) (count : nat) : WaveletProcessor :=
  match process_all lib WaveletProcessor_init (samples_from 0 count) with
  | Some self => self
  | None => WaveletProcessor_init
  end.

(** ** Vocabulary of the statements *)

(** All five buffers hold [n] entries. *)
Definition buffers_synced (self : WaveletProcessor) (n : nat) : Prop :=
  length (timestamp_buffer self) = n /\
  length (ecg_I_buffer self) = n /\
  length (ecg_II_buffer self) = n /\
  length (ecg_III_buffer self) = n /\
  length (acc_mag_buffer self) = n.

(** Timestamps paired with the three filtered channels, index by index. *)
Fixpoint zip4 (ts f1 f2 f3 : list Q) : list FilteredLine :=
  match ts, f1, f2, f3 with
  | t :: ts', a :: f1', b :: f2', c :: f3' => (t, a, b, c) :: zip4 ts' f1' f2' f3'
  | _, _, _, _ => []
  end.

(** The contract of the transform library the orchestrator relies on: on a
    signal that is not empty the filter runs to its end.  PyWavelets meets
    it: [wavedec] returns at least the approximation band and [waverec]
    returns at least one sample. *)
Definition filter_returns (lib : PyLib) : Prop :=
  forall ecg_signal motion_mask wavelet level,
    ecg_signal <> [] ->
    adaptive_wavelet_filter lib ecg_signal motion_mask wavelet level <> None.

(** The number of entries of [a] above [threshold]. *)
Definition count_above (threshold : Q) (a : list Q) : nat :=
  count_occ bool_dec (detect_motion_segments a threshold) true.

(** ** The rest of the program *)

(** [calculate_acceleration_magnitude] (lines 52-54). *)
Definition calculate_acceleration_magnitude
  (lib : PyLib) (acc_x acc_y acc_z : Q) : Q :=
  np_sqrt lib (acc_x ^ 2 + acc_y ^ 2 + acc_z ^ 2).

(** [class HolterSystem].  The queue is one object shared by the system and
    its receiver; it lives in the receiver record. *)
Record HolterSystem : Type := {
  receiver : UDPReceiver;
  processor : WaveletProcessor;
  sample_count : nat
}.

Definition HolterSystem_init : HolterSystem :=
  {| receiver := {| data_queue := []; console := [] |};
     processor := WaveletProcessor_init;
     sample_count := 0 |}.

(** One turn of [_processing_loop] (lines 326-346, the status line apart):
    take the oldest item of the queue, process it, count it; an empty queue
    after the timeout is no error.  An exception of [process_sample] is not
    caught. *)
Definition processing_turn (lib : PyLib) (self : HolterSystem)
  : option HolterSystem :=
  match data_queue (receiver self) with
  | [] => Some self
  | data :: rest =>
      processor' <- process_sample lib (processor self) data ;;
      Some {| receiver := {| data_queue := rest;
                             console := console (receiver self) |};
              processor := processor';
              sample_count := S (sample_count self) |}
  end.

(** The receiver thread handles one datagram. *)
Definition receiving_turn (py_float : string -> option Q)
  (self : HolterSystem) (decoded : string) : HolterSystem :=
  {| receiver := receive_message py_float (receiver self) decoded;
     processor := processor self;
     sample_count := sample_count self |}.

(** The two threads meet only at the queue, whose [put] and [get] are
    atomic: a run of the system is an interleaving of their turns. *)
Inductive Event : Type :=
| Datagram (decoded : string)
| ProcessingTurn.

Definition system_step (lib : PyLib) (py_float : string -> option Q)
  (self : HolterSystem) (e : Event) : option HolterSystem :=
  match e with
  | Datagram decoded => Some (receiving_turn py_float self decoded)
  | ProcessingTurn => processing_turn lib self
  end.

Fixpoint system_run (lib : PyLib) (py_float : string -> option Q)
  (self : HolterSystem) (events : list Event) : option HolterSystem :=
  match events with
  | [] => Some self
  | e :: rest =>
      self' <- system_step lib py_float self e ;;
      system_run lib py_float self' rest
  end.

(** What the statements about a run speak of: the samples a datagram
    stands for (one list of 8 values, or nothing), and those of the
    datagrams among some events, in order of arrival. *)
Definition sample_of (py_float : string -> option Q) (decoded : string)
  : list (list Q) :=
  let message := strip decoded in
  if orb (startswith message "ERROR") (startswith message "SYSTEM") then []
  else match parse_values py_float message with
       | Some values => if (length values =? 8)%nat then [values] else []
       | None => []
       end.

Definition samples_of (py_float : string -> option Q) (events : list Event)
  : list (list Q) :=
  flat_map (fun e => match e with
                     | Datagram decoded => sample_of py_float decoded
                     | ProcessingTurn => []
                     end) events.

(** The first field of a queue item. *)
Definition item_timestamp (data : list Q) : Q := nth 0 data 0.

(** Its last field, [acc_mag]. *)
Definition item_acc_mag (data : list Q) : Q := nth 7 data 0.

(** For comparison with the program, not part of it: the coefficient set
    and the output of a filter that gives every detail band the low-motion
    multiplier, with no motion mask to look at.  The statements about
    windows without motion say that the orchestrator computes exactly
    this. *)
Definition low_motion_coeffs (lib : PyLib) (ecg_signal : list Q)
  (wavelet : string) (level : nat) : option (list (list Q)) :=
  let coeffs := pywt_wavedec lib ecg_signal wavelet level in
  finest <- py_last coeffs ;;
  approximation <- py_index coeffs 0 ;;
  Some (approximation
        :: map (fun i =>
                  pywt_threshold lib (nth i coeffs [])
                    (threshold_base_of lib finest (length ecg_signal)
                     * HolterConfig.THRESHOLD_MULTIPLIER_LOW_MOTION
                     * level_factor (length coeffs) i) soft)
               (seq 1 (length coeffs - 1))).

Definition low_motion_filter (lib : PyLib) (ecg_signal : list Q)
  (wavelet : string) (level : nat) : option (list Q) :=
  cf <- low_motion_coeffs lib ecg_signal wavelet level ;;
  adjust_length (pywt_waverec lib cf wavelet) (length ecg_signal).

(** The lines of a window whose three channels all go through that
    filter. *)
Definition low_motion_window (lib : PyLib) (self : WaveletProcessor)
  : option (list FilteredLine) :=
  f1 <- low_motion_filter lib (ecg_I_buffer self)
          HolterConfig.WAVELET_TYPE HolterConfig.DECOMPOSITION_LEVEL ;;
  f2 <- low_motion_filter lib (ecg_II_buffer self)
          HolterConfig.WAVELET_TYPE HolterConfig.DECOMPOSITION_LEVEL ;;
  f3 <- low_motion_filter lib (ecg_III_buffer self)
          HolterConfig.WAVELET_TYPE HolterConfig.DECOMPOSITION_LEVEL ;;
  new_lines (timestamp_buffer self) f1 f2 f3
    (length (timestamp_buffer self) - HolterConfig.OVERLAP).

(** Samples in motion for the examples: a first lead that alternates
    between 0 and 1 with a peak of 8 every 50 samples, two other leads, and
    an acceleration magnitude that cycles through 1..7, never zero.  The
    peaks pass the low-motion threshold of the finest band and not the
    high-motion one. *)
Definition moving_sample_at (t : nat) : list Q :=
  [inject_Z (Z.of_nat t);
   inject_Z (Z.of_nat (if (t mod 50 =? 1)%nat then 8 else t mod 2));
   inject_Z (Z.of_nat (t mod 3));
   inject_Z (Z.of_nat (t mod 4)); 0; 0; 1;
   inject_Z (Z.of_nat (1 + t mod 7))].

Definition moving_session (lib : PyLib) (count : nat) : WaveletProcessor :=
  match process_all lib WaveletProcessor_init
          (map moving_sample_at (seq 0 count)) with
  | Some self => self
  | None => WaveletProcessor_init
  end.

(** What holds of the processor between two calls of [process_sample]:
    the buffers agree and are not full, the filtered file holds whole
    windows' worth of lines, every sample saved raw is either written
    filtered or still buffered, in the order of arrival, and after the first
    window the buffers never drop below the overlap. *)
Definition session_invariant (self : WaveletProcessor) : Prop :=
  exists n windows : nat,
    buffers_synced self n /\
    (n < HolterConfig.WINDOW_SIZE)%nat /\
    length (filtered_csv self)
    = (windows * (HolterConfig.WINDOW_SIZE - HolterConfig.OVERLAP))%nat /\
    (0 < windows -> HolterConfig.OVERLAP <= n)%nat /\
    map line_timestamp (filtered_csv self) ++ timestamp_buffer self
    = map item_timestamp (raw_csv self).

(** * Proofs *)

(** ** Sequences and the exception monad *)

Lemma bind_some {A B : Type} (m : option A) (k : A -> option B) (b : B) :
  bind m k = Some b -> exists a, m = Some a /\ k a = Some b.
Proof.
  destruct m as [a |]; simpl; intro H; [exists a; auto | discriminate].
Qed.

Lemma py_last_cons {A : Type} (x : A) (l : list A) (d : A) :
  py_last (x :: l) = Some (last (x :: l) d).
Proof.
  unfold py_last. revert x. induction l as [| y l IH]; intro x.
  - reflexivity.
  - specialize (IH y). cbn [length Nat.sub] in *.
    rewrite Nat.sub_0_r in *. cbn [nth_error]. rewrite IH. reflexivity.
Qed.

Lemma py_last_nonempty {A : Type} (l : list A) (d : A) :
  l <> [] -> py_last l = Some (last l d).
Proof.
  destruct l as [| x l]; [congruence | intros _; apply py_last_cons].
Qed.

Lemma py_tail_slice_length {A : Type} (k : nat) (l : list A) :
  (0 < k)%nat -> length (py_tail_slice k l) = Nat.min k (length l).
Proof.
  intro Hk. destruct k as [| k]; [lia |].
  unfold py_tail_slice. rewrite length_skipn. lia.
Qed.

Lemma mapM_ext {A B : Type} (f g : A -> option B) (l : list A) :
  (forall a, f a = g a) -> mapM f l = mapM g l.
Proof.
  intro H. induction l as [| a l IH]; simpl; [reflexivity |].
  rewrite H, IH. reflexivity.
Qed.

Lemma mapM_map {A B C : Type} (h : A -> B) (f : B -> option C) (l : list A) :
  mapM f (map h l) = mapM (fun a => f (h a)) l.
Proof.
  induction l as [| a l IH]; simpl; [reflexivity |]. rewrite IH. reflexivity.
Qed.

Lemma mapM_length {A B : Type} (f : A -> option B) (l : list A) (r : list B) :
  mapM f l = Some r -> length r = length l.
Proof.
  revert r. induction l as [| a l IH]; simpl; intros r H.
  - inversion H. reflexivity.
  - apply bind_some in H. destruct H as [b [_ H]].
    apply bind_some in H. destruct H as [bs [Hbs H]].
    inversion H. simpl. f_equal. apply IH. exact Hbs.
Qed.

(** ** Length reconciliation *)

Lemma adjust_length_spec (ecg_filtered : list Q) (n : nat) :
  ecg_filtered <> [] \/ n = 0%nat ->
  exists out,
    adjust_length ecg_filtered n = Some out /\
    length out = n /\
    ((n < length ecg_filtered)%nat -> out = firstn n ecg_filtered) /\
    ((length ecg_filtered < n)%nat ->
       out = ecg_filtered
             ++ repeat (last ecg_filtered 0) (n - length ecg_filtered)) /\
    (length ecg_filtered = n -> out = ecg_filtered).
Proof.
  intro Hne. unfold adjust_length.
  destruct (n <? length ecg_filtered)%nat eqn:Hlong.
  - apply Nat.ltb_lt in Hlong. exists (firstn n ecg_filtered).
    repeat split; try (intro; lia).
    rewrite length_firstn. lia.
  - apply Nat.ltb_ge in Hlong.
    destruct (length ecg_filtered <? n)%nat eqn:Hshort.
    + apply Nat.ltb_lt in Hshort.
      destruct Hne as [Hne | Hn0]; [| lia].
      unfold np_pad_edge. rewrite (py_last_nonempty _ 0 Hne). simpl.
      eexists. split; [reflexivity |].
      repeat split; try (intro; lia).
      rewrite length_app, repeat_length. lia.
    + apply Nat.ltb_ge in Hshort. exists ecg_filtered.
      repeat split; try (intro; lia). lia.
Qed.

Lemma adjust_length_some (ecg_filtered out : list Q) (n : nat) :
  adjust_length ecg_filtered n = Some out -> length out = n.
Proof.
  unfold adjust_length.
  destruct (n <? length ecg_filtered)%nat eqn:Hlong.
  - apply Nat.ltb_lt in Hlong. intro H. inversion H.
    rewrite length_firstn. lia.
  - apply Nat.ltb_ge in Hlong.
    destruct (length ecg_filtered <? n)%nat eqn:Hshort.
    + apply Nat.ltb_lt in Hshort. unfold np_pad_edge. intro H.
      apply bind_some in H. destruct H as [e [_ H]]. inversion H.
      rewrite length_app, repeat_length. lia.
    + apply Nat.ltb_ge in Hshort. intro H. inversion H. subst. lia.
Qed.

Lemma adaptive_wavelet_filter_some_length
  (lib : PyLib) (ecg_signal : list Q) (motion_mask : list bool)
  (wavelet : string) (level : nat) (out : list Q) :
  adaptive_wavelet_filter lib ecg_signal motion_mask wavelet level = Some out ->
  length out = length ecg_signal.
Proof.
  unfold adaptive_wavelet_filter. intro H.
  apply bind_some in H. destruct H as [cf [_ H]].
  apply adjust_length_some in H. exact H.
Qed.

(** ** The coefficient set handed to the reconstruction *)

Lemma filtered_coeffs_shape
  (lib : PyLib) (ecg_signal : list Q) (motion_mask : list bool)
  (wavelet : string) (level : nat) :
  let coeffs := pywt_wavedec lib ecg_signal wavelet level in
  coeffs <> [] ->
  exists finest approximation,
    py_last coeffs = Some finest /\
    nth_error coeffs 0 = Some approximation /\
    filtered_coeffs lib ecg_signal motion_mask wavelet level
    = Some (approximation
            :: map (filter_band lib coeffs
                      (threshold_base_of lib finest (length ecg_signal))
                      motion_mask)
                   (seq 1 (length coeffs - 1))).
Proof.
  intros coeffs Hne. unfold filtered_coeffs. fold coeffs.
  destruct coeffs as [| approximation details] eqn:Hc; [congruence |].
  exists (last (approximation :: details) []), approximation.
  rewrite (py_last_cons approximation details []).
  repeat split.
Qed.

Lemma filtered_coeffs_band
  (lib : PyLib) (coeffs : list (list Q)) (T0 : Q) (motion_mask : list bool)
  (approximation : list Q) (i : nat) :
  (1 <= i < length coeffs)%nat ->
  nth i (approximation
         :: map (filter_band lib coeffs T0 motion_mask)
                (seq 1 (length coeffs - 1))) []
  = filter_band lib coeffs T0 motion_mask i.
Proof.
  intros [Hi Hlt]. destruct i as [| j]; [lia |]. cbn [nth].
  rewrite (nth_indep _ [] (filter_band lib coeffs T0 motion_mask 0%nat))
    by (rewrite length_map, length_seq; lia).
  rewrite map_nth. rewrite seq_nth by lia. reflexivity.
Qed.

Lemma Qgtb_lt (a b : Q) : Qgtb a b = true <-> b < a.
Proof.
  unfold Qgtb. rewrite negb_true_iff. split.
  - intro H. apply Qnot_le_lt. intro Hle.
    apply Qle_bool_iff in Hle. congruence.
  - intro H. destruct (Qle_bool a b) eqn:E; [| reflexivity].
    apply Qle_bool_iff in E. exfalso. exact (Qlt_not_le _ _ H E).
Qed.

Lemma Qgtb_le (a b : Q) : Qgtb a b = false <-> a <= b.
Proof.
  unfold Qgtb. rewrite negb_false_iff. apply Qle_bool_iff.
Qed.

Lemma level_factor_pos (ncoeffs i : nat) : 0 < level_factor ncoeffs i.
Proof.
  unfold level_factor. apply Qpower_0_lt. reflexivity.
Qed.

(** C3: the filter returns exactly as many samples as it was given, for every
    signal length and every level: a longer reconstruction is cut to its
    first [N] samples, a shorter one is extended with copies of its last
    sample.  The library is asked for what PyWavelets provides: at least one
    coefficient array, and a reconstruction that is not empty unless the
    signal is. *)
Theorem adaptive_wavelet_filter_length
  (lib : PyLib) (ecg_signal : list Q) (motion_mask : list bool)
  (wavelet : string) (level : nat) :
  pywt_wavedec lib ecg_signal wavelet level <> [] ->
  (ecg_signal = [] \/
   forall cf, filtered_coeffs lib ecg_signal motion_mask wavelet level = Some cf ->
              pywt_waverec lib cf wavelet <> []) ->
  exists cf out,
    filtered_coeffs lib ecg_signal motion_mask wavelet level = Some cf /\
    adaptive_wavelet_filter lib ecg_signal motion_mask wavelet level = Some out /\
    length out = length ecg_signal /\
    let reconstructed := pywt_waverec lib cf wavelet in
    let N := length ecg_signal in
    ((N < length reconstructed)%nat -> out = firstn N reconstructed) /\
    ((length reconstructed < N)%nat ->
       out = reconstructed
             ++ repeat (last reconstructed 0) (N - length reconstructed)) /\
    (length reconstructed = N -> out = reconstructed).
Proof.
  intros Hdec Hrec.
  destruct (filtered_coeffs_shape lib ecg_signal motion_mask wavelet level Hdec)
    as [finest [approximation [_ [_ Hcf]]]].
  set (cf := approximation :: _) in Hcf.
  assert (Hne : pywt_waverec lib cf wavelet <> [] \/ length ecg_signal = 0%nat).
  { destruct Hrec as [Hnil | Hrec].
    - right. rewrite Hnil. reflexivity.
    - left. apply Hrec. exact Hcf. }
  destruct (adjust_length_spec _ _ Hne) as [out [Hout [Hlen Hcases]]].
  exists cf, out. split; [exact Hcf |]. split.
  - unfold adaptive_wavelet_filter. rewrite Hcf. simpl. exact Hout.
  - split; [exact Hlen | exact Hcases].
Qed.

Lemma adaptive_wavelet_filter_length_witness :
  exists cf out,
    filtered_coeffs HaarLib.lib [1; 2; 3; 4; 5] [true; false; false; false; false]
      "db4" 2 = Some cf /\
    adaptive_wavelet_filter HaarLib.lib [1; 2; 3; 4; 5]
      [true; false; false; false; false] "db4" 2 = Some out /\
    length out = 5%nat /\
    let reconstructed := pywt_waverec HaarLib.lib cf "db4" in
    ((5 < length reconstructed)%nat -> out = firstn 5 reconstructed) /\
    ((length reconstructed < 5)%nat ->
       out = reconstructed
             ++ repeat (last reconstructed 0) (5 - length reconstructed)) /\
    (length reconstructed = 5%nat -> out = reconstructed).
Proof.
  apply (adaptive_wavelet_filter_length HaarLib.lib [1; 2; 3; 4; 5]
           [true; false; false; false; false] "db4" 2).
  - vm_compute. discriminate.
  - right. intros cf H. vm_compute in H. inversion H. vm_compute. discriminate.
Defined.

(** C8: the approximation band goes into the reconstruction as the
    decomposition produced it; only the detail bands, the entries 1 and
    above of the coefficient list, pass through the soft threshold. *)
Theorem approximation_band_untouched
  (lib : PyLib) (ecg_signal : list Q) (motion_mask : list bool)
  (wavelet : string) (level : nat) :
  let coeffs := pywt_wavedec lib ecg_signal wavelet level in
  coeffs <> [] ->
  exists cf,
    filtered_coeffs lib ecg_signal motion_mask wavelet level = Some cf /\
    adaptive_wavelet_filter lib ecg_signal motion_mask wavelet level
    = adjust_length (pywt_waverec lib cf wavelet) (length ecg_signal) /\
    length cf = length coeffs /\
    nth_error cf 0 = nth_error coeffs 0 /\
    forall i, (1 <= i < length coeffs)%nat ->
      exists T, nth i cf [] = pywt_threshold lib (nth i coeffs []) T soft.
Proof.
  intros coeffs Hne.
  destruct (filtered_coeffs_shape lib ecg_signal motion_mask wavelet level Hne)
    as [finest [approximation [_ [Happ Hcf]]]].
  fold coeffs in Happ, Hcf.
  eexists. split; [exact Hcf |]. split; [| split; [| split]].
  - unfold adaptive_wavelet_filter. rewrite Hcf. reflexivity.
  - cbn [length]. rewrite length_map, length_seq.
    destruct coeffs; [congruence | simpl; lia].
  - rewrite Happ. reflexivity.
  - intros i Hi. rewrite filtered_coeffs_band by exact Hi.
    eexists. reflexivity.
Qed.

Lemma approximation_band_untouched_witness :
  exists cf,
    filtered_coeffs HaarLib.lib [4; 2; 6; 8] [false; true; true; false] "db4" 2
    = Some cf /\
    nth_error cf 0 = Some [40 # 8].
Proof.
  destruct (approximation_band_untouched HaarLib.lib [4; 2; 6; 8]
              [false; true; true; false] "db4" 2)
    as [cf [Hcf [_ [_ [Happ _]]]]].
  - vm_compute. discriminate.
  - exists cf. split; [exact Hcf |]. rewrite Happ. vm_compute. reflexivity.
Defined.

(** C6: with [L + 1] coefficient arrays, band [i] (1 the coarsest, [L] the
    finest) is soft-thresholded at [T0 * multiplier * 1.5^(L + 1 - i)], where
    [T0 = median(|finest band|) / 0.6745 * sqrt(2 ln N)] and the multiplier is
    2.5 exactly when the mean of the motion mask is above 0.3, else 1.0. *)
Theorem band_threshold_formula
  (lib : PyLib) (ecg_signal : list Q) (motion_mask : list bool)
  (wavelet : string) (L i : nat) :
  let coeffs := pywt_wavedec lib ecg_signal wavelet L in
  length coeffs = S L ->
  (1 <= i <= L)%nat ->
  exists finest cf,
    nth_error coeffs L = Some finest /\
    py_last coeffs = Some finest /\
    filtered_coeffs lib ecg_signal motion_mask wavelet L = Some cf /\
    let sigma := np_median (np_abs finest) / (6745 # 10000) in
    let T0 :=
      sigma * np_sqrt lib (2 * np_log lib (inject_Z (Z.of_nat (length ecg_signal)))) in
    let motion_ratio := np_mean_mask motion_mask in
    let multiplier := if Qgtb motion_ratio (3 # 10) then 5 # 2 else 1 in
    (Qgtb motion_ratio (3 # 10) = true <-> 3 # 10 < motion_ratio) /\
    nth i cf []
    = pywt_threshold lib (nth i coeffs [])
        (T0 * multiplier * (3 # 2) ^ Z.of_nat (L + 1 - i)) soft.
Proof.
  intros coeffs Hlen Hi.
  assert (Hne : coeffs <> []) by (destruct coeffs; [discriminate | congruence]).
  destruct (filtered_coeffs_shape lib ecg_signal motion_mask wavelet L Hne)
    as [finest [approximation [Hlast [_ Hcf]]]].
  fold coeffs in Hlast, Hcf.
  exists finest. eexists. split; [| split; [exact Hlast | split; [exact Hcf |]]].
  - revert Hlast. unfold py_last. destruct coeffs; [discriminate |].
    rewrite Hlen. cbn [Nat.sub]. rewrite Nat.sub_0_r. auto.
  - cbv zeta. split; [apply Qgtb_lt |].
    rewrite filtered_coeffs_band by lia.
    unfold filter_band, apply_wavelet_thresholding, band_threshold, high_motion,
      threshold_base_of, noise_sigma, level_factor.
    unfold HolterConfig.THRESHOLD_MULTIPLIER_HIGH_MOTION,
      HolterConfig.THRESHOLD_MULTIPLIER_LOW_MOTION.
    rewrite Hlen. replace (S L - i)%nat with (L + 1 - i)%nat by lia.
    destruct (Qgtb (np_mean_mask motion_mask) (3 # 10)); reflexivity.
Qed.

Lemma band_threshold_formula_witness :
  exists finest cf,
    nth_error (pywt_wavedec HaarLib.lib [4; 2; 6; 9] "db4" 2) 2 = Some finest /\
    filtered_coeffs HaarLib.lib [4; 2; 6; 9] [true; true; false; false] "db4" 2
    = Some cf /\
    nth 1 cf []
    = pywt_threshold HaarLib.lib
        (nth 1 (pywt_wavedec HaarLib.lib [4; 2; 6; 9] "db4" 2) [])
        (np_median (np_abs finest) / (6745 # 10000)
         * np_sqrt HaarLib.lib (2 * np_log HaarLib.lib (inject_Z (Z.of_nat 4)))
         * (5 # 2) * (3 # 2) ^ Z.of_nat (2 + 1 - 1)) soft.
Proof.
  destruct (band_threshold_formula HaarLib.lib [4; 2; 6; 9]
              [true; true; false; false] "db4" 2 1)
    as [finest [cf [Hfin [_ [Hcf [_ Hband]]]]]].
  - vm_compute. reflexivity.
  - lia.
  - exists finest, cf. split; [exact Hfin |]. split; [exact Hcf | exact Hband].
Defined.

(** ** The two multipliers compared *)

Lemma band_threshold_high (T0 : Q) (motion_mask : list bool) (n i : nat) :
  3 # 10 < np_mean_mask motion_mask ->
  band_threshold T0 motion_mask n i
  = T0 * HolterConfig.THRESHOLD_MULTIPLIER_HIGH_MOTION * level_factor n i.
Proof.
  intro H. unfold band_threshold, high_motion.
  apply Qgtb_lt in H. rewrite H. reflexivity.
Qed.

Lemma band_threshold_low (T0 : Q) (motion_mask : list bool) (n i : nat) :
  np_mean_mask motion_mask <= 3 # 10 ->
  band_threshold T0 motion_mask n i
  = T0 * HolterConfig.THRESHOLD_MULTIPLIER_LOW_MOTION * level_factor n i.
Proof.
  intro H. unfold band_threshold, high_motion.
  apply Qgtb_le in H. rewrite H. reflexivity.
Qed.

(** C7 as stated fails on a flat signal: for a window of 500 zeros every
    detail coefficient is zero, so the base threshold is zero and the
    threshold of band 1 is the same, zero, under a mask with every sample in
    motion and under a mask with none. *)
Lemma flat_signal_thresholds_coincide :
  let ecg_signal := repeat 0 500 in
  let coeffs :=
    pywt_wavedec HaarLib.lib ecg_signal HolterConfig.WAVELET_TYPE
      HolterConfig.DECOMPOSITION_LEVEL in
  exists finest,
    py_last coeffs = Some finest /\
    3 # 10 < np_mean_mask (repeat true 500) /\
    np_mean_mask (repeat false 500) <= 3 # 10 /\
    let T0 := threshold_base_of HaarLib.lib finest (length ecg_signal) in
    ~ (band_threshold T0 (repeat false 500) (length coeffs) 1
       < band_threshold T0 (repeat true 500) (length coeffs) 1).
Proof.
  eexists. split; [vm_compute; reflexivity |].
  split; [vm_compute; reflexivity |].
  split; [vm_compute; discriminate |].
  vm_compute. discriminate.
Qed.

(** C7, amended: for one signal and one detail band, with a positive base
    threshold [T0] the threshold under a motion ratio above 0.3 is strictly
    greater than the threshold under a motion ratio of at most 0.3; with
    [T0] equal to zero the two thresholds are equal. *)
Theorem high_motion_threshold_greater
  (lib : PyLib) (ecg_signal : list Q) (wavelet : string) (level : nat)
  (finest : list Q) (mask_low mask_high : list bool) (i : nat) :
  let coeffs := pywt_wavedec lib ecg_signal wavelet level in
  let T0 := threshold_base_of lib finest (length ecg_signal) in
  py_last coeffs = Some finest ->
  np_mean_mask mask_low <= 3 # 10 ->
  3 # 10 < np_mean_mask mask_high ->
  (0 < T0 ->
   band_threshold T0 mask_low (length coeffs) i
   < band_threshold T0 mask_high (length coeffs) i) /\
  (T0 == 0 ->
   band_threshold T0 mask_low (length coeffs) i
   == band_threshold T0 mask_high (length coeffs) i).
Proof.
  intros coeffs T0 _ Hlow Hhigh.
  rewrite (band_threshold_low _ _ _ _ Hlow), (band_threshold_high _ _ _ _ Hhigh).
  unfold HolterConfig.THRESHOLD_MULTIPLIER_HIGH_MOTION,
    HolterConfig.THRESHOLD_MULTIPLIER_LOW_MOTION.
  pose proof (level_factor_pos (length coeffs) i) as Hpos.
  split.
  - intro HT0. apply Qmult_lt_compat_r; [exact Hpos | lra].
  - intro HT0. rewrite HT0. ring.
Qed.

Lemma high_motion_threshold_greater_witness :
  let coeffs := pywt_wavedec HaarLib.lib [4; 2; 6; 9] "db4" 2 in
  let T0 := threshold_base_of HaarLib.lib [2 # 2; -3 # 2] 4 in
  0 < T0 /\
  band_threshold T0 [true; false; false; false] (length coeffs) 1
  < band_threshold T0 [true; true; false; false] (length coeffs) 1.
Proof.
  assert (Hpos : 0 < threshold_base_of HaarLib.lib [2 # 2; -3 # 2] 4)
    by (vm_compute; reflexivity).
  split; [exact Hpos |].
  apply (high_motion_threshold_greater HaarLib.lib [4; 2; 6; 9] "db4" 2
           [2 # 2; -3 # 2] [true; false; false; false]
           [true; true; false; false] 1).
  - vm_compute. reflexivity.
  - vm_compute. discriminate.
  - vm_compute. reflexivity.
  - exact Hpos.
Defined.

(** ** Sorting and order statistics *)

Lemma insert_sorted_perm (x : Q) (l : list Q) :
  Permutation (x :: l) (insert_sorted x l).
Proof.
  induction l as [| y l IH]; simpl.
  - apply Permutation_refl.
  - destruct (Qle_bool x y).
    + apply Permutation_refl.
    + eapply perm_trans; [apply perm_swap |]. apply perm_skip. exact IH.
Qed.

Lemma np_sort_perm (a : list Q) : Permutation a (np_sort a).
Proof.
  induction a as [| x a IH]; simpl.
  - apply perm_nil.
  - eapply perm_trans; [apply perm_skip; exact IH | apply insert_sorted_perm].
Qed.

Lemma np_sort_length (a : list Q) : length (np_sort a) = length a.
Proof.
  symmetry. apply Permutation_length. apply np_sort_perm.
Qed.

Lemma insert_sorted_sorted (x : Q) (l : list Q) :
  StronglySorted Qle l -> StronglySorted Qle (insert_sorted x l).
Proof.
  induction l as [| y l IH]; simpl; intro Hs.
  - constructor; [constructor | constructor].
  - apply StronglySorted_inv in Hs. destruct Hs as [Hs Hall].
    destruct (Qle_bool x y) eqn:E.
    + apply Qle_bool_iff in E. constructor.
      * constructor; assumption.
      * constructor; [exact E |].
        eapply Forall_impl; [| exact Hall].
        intros z Hz. eapply Qle_trans; eassumption.
    + assert (Hyx : y <= x).
      { apply Qlt_le_weak. apply Qnot_le_lt. intro Hle.
        apply Qle_bool_iff in Hle. congruence. }
      constructor; [apply IH; exact Hs |].
      eapply Permutation_Forall; [apply insert_sorted_perm |].
      constructor; assumption.
Qed.

Lemma np_sort_sorted (a : list Q) : StronglySorted Qle (np_sort a).
Proof.
  induction a as [| x a IH]; simpl.
  - constructor.
  - apply insert_sorted_sorted. exact IH.
Qed.

Lemma sorted_nth_le (s : list Q) (i j : nat) :
  StronglySorted Qle s -> (i <= j)%nat -> (j < length s)%nat ->
  nth i s 0 <= nth j s 0.
Proof.
  intro Hs. revert i j. induction Hs as [| x s Hs IH Hall]; intros i j Hij Hj.
  - simpl in Hj. lia.
  - destruct j as [| j].
    + replace i with 0%nat by lia. apply Qle_refl.
    + simpl in Hj. destruct i as [| i].
      * cbn [nth]. rewrite Forall_forall in Hall. apply Hall.
        apply nth_In. lia.
      * cbn [nth]. apply IH; lia.
Qed.

Lemma count_above_cons (threshold x : Q) (a : list Q) :
  count_above threshold (x :: a)
  = ((if Qgtb x threshold then 1 else 0) + count_above threshold a)%nat.
Proof.
  unfold count_above. cbn [detect_motion_segments map].
  destruct (Qgtb x threshold); reflexivity.
Qed.

Lemma count_above_le_length (threshold : Q) (a : list Q) :
  (count_above threshold a <= length a)%nat.
Proof.
  induction a as [| x a IH]; [apply Nat.le_refl |].
  rewrite count_above_cons. cbn [length].
  destruct (Qgtb x threshold); lia.
Qed.

Lemma count_above_perm (threshold : Q) (a b : list Q) :
  Permutation a b -> count_above threshold a = count_above threshold b.
Proof.
  intro H. unfold count_above, detect_motion_segments.
  apply Permutation_count_occ. apply Permutation_map. exact H.
Qed.

(** In sorted data nothing up to an entry that is at most the threshold can
    be above the threshold. *)
Lemma count_above_sorted (threshold : Q) (s : list Q) (k : nat) :
  StronglySorted Qle s -> (k < length s)%nat -> nth k s 0 <= threshold ->
  (count_above threshold s <= length s - S k)%nat.
Proof.
  intro Hs. revert k. induction Hs as [| x s Hs IH Hall]; intros k Hk Hle.
  - simpl in Hk. lia.
  - rewrite count_above_cons. cbn [length].
    assert (Hx : Qgtb x threshold = false).
    { apply Qgtb_le. destruct k as [| k]; [exact Hle |].
      cbn [nth] in Hle. eapply Qle_trans; [| exact Hle].
      rewrite Forall_forall in Hall. apply Hall. apply nth_In.
      simpl in Hk. lia. }
    rewrite Hx. destruct k as [| k].
    + pose proof (count_above_le_length threshold s). lia.
    + cbn [nth] in Hle. simpl in Hk.
      specialize (IH k ltac:(lia) Hle). lia.
Qed.

Lemma np_lerp_ge (a b t : Q) : a <= b -> 0 <= t <= 1 -> a <= np_lerp a b t.
Proof.
  intros Hab [Ht0 Ht1]. unfold np_lerp.
  assert (H0 : 0 <= (b - a) * t) by (apply Qmult_le_0_compat; lra).
  destruct (Qle_bool (1 # 2) t); lra.
Qed.

(** The 75th percentile of 500 values sits a quarter of the way from the
    entry of rank 374 to the entry of rank 375 of the sorted data. *)
Lemma np_percentile_window (acc_mag : list Q) :
  length acc_mag = 500%nat ->
  np_percentile acc_mag HolterConfig.ACC_THRESHOLD_PERCENTILE
  = Some (np_lerp (nth 374 (np_sort acc_mag) 0) (nth 375 (np_sort acc_mag) 0)
            (25 # 100)).
Proof.
  intro Hlen. unfold np_percentile. rewrite Hlen. reflexivity.
Qed.

Lemma first_window_motion_count (acc_mag : list Q) (threshold : Q) :
  length acc_mag = 500%nat ->
  np_percentile acc_mag HolterConfig.ACC_THRESHOLD_PERCENTILE = Some threshold ->
  (count_above threshold acc_mag <= 125)%nat.
Proof.
  intros Hlen Hp. rewrite (np_percentile_window _ Hlen) in Hp.
  injection Hp as Hp.
  rewrite (count_above_perm _ _ _ (np_sort_perm acc_mag)).
  pose proof (np_sort_sorted acc_mag) as Hs.
  pose proof (np_sort_length acc_mag) as Hl. rewrite Hlen in Hl.
  assert (Hle : nth 374 (np_sort acc_mag) 0 <= threshold).
  { rewrite <- Hp. apply np_lerp_ge.
    - apply sorted_nth_le; [exact Hs | lia | lia].
    - split; [discriminate | discriminate]. }
  pose proof (count_above_sorted threshold _ 374%nat Hs ltac:(lia) Hle) as H.
  rewrite Hl in H. lia.
Qed.

Lemma quarter_mask_mean (motion_mask : list bool) :
  length motion_mask = 500%nat ->
  (count_occ bool_dec motion_mask true <= 125)%nat ->
  np_mean_mask motion_mask <= 1 # 4.
Proof.
  intros Hlen Hc. unfold np_mean_mask. rewrite Hlen.
  apply Qle_shift_div_r; [reflexivity |].
  apply Qle_trans with (inject_Z 125).
  - rewrite <- Zle_Qle. lia.
  - discriminate.
Qed.

(** ** The processor, step by step *)

Lemma process_window_inv (lib : PyLib) (self mid : WaveletProcessor) :
  _process_window lib self = Some mid ->
  exists threshold lines,
    window_output lib self = Some (threshold, lines) /\
    mid = {| timestamp_buffer := timestamp_buffer self;
             ecg_I_buffer := ecg_I_buffer self;
             ecg_II_buffer := ecg_II_buffer self;
             ecg_III_buffer := ecg_III_buffer self;
             acc_mag_buffer := acc_mag_buffer self;
             acc_threshold := Some threshold;
             raw_csv := raw_csv self;
             filtered_csv := filtered_csv self ++ lines |}.
Proof.
  unfold _process_window. intro H. apply bind_some in H.
  destruct H as [[threshold lines] [Hout H]].
  exists threshold, lines. split; [exact Hout |].
  injection H as H. symmetry. exact H.
Qed.

Lemma process_sample_inv (lib : PyLib) (self self' : WaveletProcessor)
  (data : list Q) :
  process_sample lib self data = Some self' ->
  exists timestamp ecg_I ecg_II ecg_III acc_x acc_y acc_z acc_mag,
    data = [timestamp; ecg_I; ecg_II; ecg_III; acc_x; acc_y; acc_z; acc_mag] /\
    let appended :=
      append_sample (_save_raw_sample self data)
        timestamp ecg_I ecg_II ecg_III acc_mag in
    (is_full appended = true /\
     exists mid, _process_window lib appended = Some mid /\ self' = slide mid)
    \/ (is_full appended = false /\ self' = appended).
Proof.
  unfold process_sample. intro H.
  do 8 (destruct data as [| ? data]; [discriminate H |]).
  destruct data; [| discriminate H].
  do 8 eexists. split; [reflexivity |]. cbv zeta.
  match type of H with
  | (if is_full ?a then _ else _) = _ => destruct (is_full a) eqn:Hfull
  end.
  - left. split; [reflexivity |].
    apply bind_some in H. destruct H as [mid [Hmid H]].
    exists mid. split; [exact Hmid |]. injection H as H. symmetry. exact H.
  - right. split; [reflexivity |]. injection H as H. symmetry. exact H.
Qed.

Lemma append_sample_synced (self : WaveletProcessor) (n : nat)
  (timestamp ecg_I ecg_II ecg_III acc_mag : Q) :
  buffers_synced self n ->
  buffers_synced (append_sample self timestamp ecg_I ecg_II ecg_III acc_mag)
    (S n).
Proof.
  unfold buffers_synced, append_sample. cbn [timestamp_buffer ecg_I_buffer
    ecg_II_buffer ecg_III_buffer acc_mag_buffer].
  rewrite !length_app. cbn [length]. lia.
Qed.

Lemma slide_synced (self : WaveletProcessor) (n : nat) :
  buffers_synced self n ->
  buffers_synced (slide self) (Nat.min HolterConfig.OVERLAP n).
Proof.
  unfold buffers_synced, slide. cbn [timestamp_buffer ecg_I_buffer
    ecg_II_buffer ecg_III_buffer acc_mag_buffer].
  assert (Hpos : (0 < HolterConfig.OVERLAP)%nat)
    by (unfold HolterConfig.OVERLAP; lia).
  intros [H1 [H2 [H3 [H4 H5]]]].
  rewrite !py_tail_slice_length by exact Hpos.
  rewrite H1, H2, H3, H4, H5. repeat split.
Qed.

Lemma process_window_synced (lib : PyLib) (self mid : WaveletProcessor)
  (n : nat) :
  buffers_synced self n -> _process_window lib self = Some mid ->
  buffers_synced mid n.
Proof.
  intros Hs H. apply process_window_inv in H.
  destruct H as [threshold [lines [_ Hmid]]]. subst mid. exact Hs.
Qed.

Lemma process_sample_synced (lib : PyLib) (self self' : WaveletProcessor)
  (data : list Q) (n : nat) :
  buffers_synced self n -> process_sample lib self data = Some self' ->
  buffers_synced self'
    (if (HolterConfig.WINDOW_SIZE <=? S n)%nat
     then Nat.min HolterConfig.OVERLAP (S n) else S n).
Proof.
  intros Hs H. apply process_sample_inv in H.
  destruct H as [t [e1 [e2 [e3 [ax [ay [az [am [Hdata H]]]]]]]]].
  cbv zeta in H.
  assert (Happ : buffers_synced
            (append_sample (_save_raw_sample self data) t e1 e2 e3 am) (S n))
    by (apply append_sample_synced; exact Hs).
  assert (Hfull : is_full (append_sample (_save_raw_sample self data) t e1 e2 e3 am)
                  = (HolterConfig.WINDOW_SIZE <=? S n)%nat).
  { unfold is_full. destruct Happ as [_ [H2 _]]. rewrite H2. reflexivity. }
  rewrite Hfull in H.
  destruct H as [[Hf [mid [Hmid Hself]]] | [Hf Hself]]; rewrite Hf; subst self'.
  - apply slide_synced. eapply process_window_synced; eassumption.
  - exact Happ.
Qed.

(** Between two calls of [process_sample] the buffers are synchronised and
    hold fewer than [WINDOW_SIZE] entries. *)
Lemma reachable_synced (lib : PyLib) (self : WaveletProcessor) :
  reachable lib self ->
  exists n, buffers_synced self n /\ (n < HolterConfig.WINDOW_SIZE)%nat.
Proof.
  induction 1 as [| self data self' _ [n [Hs Hn]] Hstep].
  - exists 0%nat. split; [repeat split | unfold HolterConfig.WINDOW_SIZE; lia].
  - eexists. split; [eapply process_sample_synced; eassumption |].
    unfold HolterConfig.WINDOW_SIZE, HolterConfig.OVERLAP in *.
    destruct (500 <=? S n)%nat eqn:E.
    + lia.
    + apply Nat.leb_gt in E. exact E.
Qed.

Lemma process_all_reachable (lib : PyLib) (items : list (list Q))
  (self self' : WaveletProcessor) :
  reachable lib self -> process_all lib self items = Some self' ->
  reachable lib self'.
Proof.
  revert self. induction items as [| data rest IH]; intros self Hr H.
  - injection H as H. subst. exact Hr.
  - cbn [process_all] in H. apply bind_some in H.
    destruct H as [next [Hnext H]].
    apply (IH next); [| exact H].
    eapply reachable_step; eassumption.
Qed.

(** ** The window buffer manager *)

(** C4: the five buffers have one common length, and every operation keeps
    it so: an append adds one entry to each, processing a window leaves them
    as they are, and a slide leaves [min(OVERLAP, previous length)] entries
    in each.  Hence they agree in every state of a session. *)
Theorem buffers_stay_synced (lib : PyLib) (self : WaveletProcessor) (n : nat) :
  (buffers_synced self n ->
   (forall timestamp ecg_I ecg_II ecg_III acc_mag,
      buffers_synced
        (append_sample self timestamp ecg_I ecg_II ecg_III acc_mag) (S n)) /\
   buffers_synced (slide self) (Nat.min HolterConfig.OVERLAP n) /\
   (forall data, buffers_synced (_save_raw_sample self data) n) /\
   (forall mid, _process_window lib self = Some mid -> buffers_synced mid n) /\
   (forall data self',
      process_sample lib self data = Some self' ->
      buffers_synced self'
        (if (HolterConfig.WINDOW_SIZE <=? S n)%nat
         then Nat.min HolterConfig.OVERLAP (S n) else S n))) /\
  (reachable lib self -> exists m, buffers_synced self m).
Proof.
  split.
  - intro Hs. split; [| split; [| split; [| split]]].
    + intros. apply append_sample_synced. exact Hs.
    + apply slide_synced. exact Hs.
    + intro data. exact Hs.
    + intros mid H. eapply process_window_synced; eassumption.
    + intros data self' H. eapply process_sample_synced; eassumption.
  - intro Hr. destruct (reachable_synced lib self Hr) as [m [Hm _]].
    exists m. exact Hm.
Qed.

Lemma buffers_stay_synced_witness :
  let self :=
    {| timestamp_buffer := [10; 11; 12]; ecg_I_buffer := [1; 2; 3];
       ecg_II_buffer := [4; 5; 6]; ecg_III_buffer := [7; 8; 9];
       acc_mag_buffer := [1; 1; 1]; acc_threshold := None;
       raw_csv := []; filtered_csv := [] |} in
  buffers_synced self 3 /\
  buffers_synced (append_sample self 13 4 7 10 1) 4 /\
  buffers_synced (slide self) (Nat.min HolterConfig.OVERLAP 3).
Proof.
  intro self.
  assert (Hs : buffers_synced self 3) by (repeat split).
  destruct (proj1 (buffers_stay_synced HaarLib.lib self 3) Hs)
    as [Happend [Hslide _]].
  split; [exact Hs |]. split; [apply Happend | exact Hslide].
Defined.

(** ** The motion threshold *)

Lemma calibrate_held (self : WaveletProcessor) (t : Q) (acc_mag : list Q) :
  acc_threshold self = Some t -> calibrate self acc_mag = Some t.
Proof.
  unfold calibrate. intro H. rewrite H. reflexivity.
Qed.

Lemma window_output_threshold (lib : PyLib) (self : WaveletProcessor)
  (threshold : Q) (lines : list FilteredLine) :
  window_output lib self = Some (threshold, lines) ->
  calibrate self (acc_mag_buffer self) = Some threshold.
Proof.
  unfold window_output. intro H. apply bind_some in H.
  destruct H as [t [Ht H]].
  apply bind_some in H. destruct H as [f1 [_ H]].
  apply bind_some in H. destruct H as [f2 [_ H]].
  apply bind_some in H. destruct H as [f3 [_ H]].
  apply bind_some in H. destruct H as [ls [_ H]].
  injection H as H _. subst t. exact Ht.
Qed.

Lemma process_sample_threshold (lib : PyLib) (self self' : WaveletProcessor)
  (data : list Q) :
  process_sample lib self data = Some self' ->
  let window := acc_mag_buffer self ++ [nth 7 data 0] in
  let processed :=
    (HolterConfig.WINDOW_SIZE <=? S (length (ecg_I_buffer self)))%nat in
  (processed = false -> acc_threshold self' = acc_threshold self) /\
  (processed = true ->
   exists t, acc_threshold self' = Some t /\
             calibrate self window = Some t).
Proof.
  intro H. apply process_sample_inv in H.
  destruct H as [t [e1 [e2 [e3 [ax [ay [az [am [Hdata H]]]]]]]]].
  cbv zeta in *. subst data.
  set (appended := append_sample _ t e1 e2 e3 am) in H.
  assert (Hfull : is_full appended
                  = (HolterConfig.WINDOW_SIZE <=? S (length (ecg_I_buffer self)))%nat).
  { unfold is_full, appended, append_sample, _save_raw_sample.
    cbn [ecg_I_buffer]. rewrite length_app. cbn [length].
    rewrite Nat.add_1_r. reflexivity. }
  rewrite Hfull in H.
  destruct H as [[Hf [mid [Hmid Hself]]] | [Hf Hself]]; rewrite Hf; subst self'.
  - split; [discriminate |]. intros _.
    apply process_window_inv in Hmid.
    destruct Hmid as [threshold [lines [Hout Hmid]]]. subst mid.
    exists threshold. split; [reflexivity |].
    apply window_output_threshold in Hout. exact Hout.
  - split; [reflexivity | discriminate].
Qed.

Lemma process_sample_keeps_threshold (lib : PyLib)
  (self self' : WaveletProcessor) (data : list Q) (t : Q) :
  acc_threshold self = Some t ->
  process_sample lib self data = Some self' ->
  acc_threshold self' = Some t.
Proof.
  intros Ht H. destruct (process_sample_threshold lib self self' data H)
    as [Hidle Hwin].
  destruct (HolterConfig.WINDOW_SIZE <=? S (length (ecg_I_buffer self)))%nat.
  - destruct (Hwin eq_refl) as [t' [Ht' Hcal]].
    rewrite (calibrate_held self t _ Ht) in Hcal. congruence.
  - rewrite (Hidle eq_refl). exact Ht.
Qed.

Lemma process_all_keeps_threshold (lib : PyLib) (items : list (list Q))
  (self final : WaveletProcessor) (t : Q) :
  acc_threshold self = Some t ->
  process_all lib self items = Some final ->
  acc_threshold final = Some t.
Proof.
  revert self. induction items as [| data rest IH]; intros self Ht H.
  - injection H as H. subst. exact Ht.
  - cbn [process_all] in H. apply bind_some in H.
    destruct H as [next [Hnext H]].
    apply (IH next); [| exact H].
    eapply process_sample_keeps_threshold; eassumption.
Qed.

(** C5: the threshold is set by the first window that is processed, to the
    75th percentile of the acceleration magnitudes of that window; a sample
    that completes no window leaves it as it is, and once it holds a value
    every later window, whatever its accelerations, uses that value and
    leaves it in place. *)
Theorem threshold_calibrated_once
  (lib : PyLib) (self self' : WaveletProcessor) (data : list Q) :
  process_sample lib self data = Some self' ->
  let window := acc_mag_buffer self ++ [nth 7 data 0] in
  let processed :=
    (HolterConfig.WINDOW_SIZE <=? S (length (ecg_I_buffer self)))%nat in
  (processed = false -> acc_threshold self' = acc_threshold self) /\
  (processed = true -> acc_threshold self = None ->
   acc_threshold self' <> None /\
   acc_threshold self'
   = np_percentile window HolterConfig.ACC_THRESHOLD_PERCENTILE) /\
  (forall t, acc_threshold self = Some t ->
     acc_threshold self' = Some t /\
     forall items final,
       process_all lib self' items = Some final ->
       acc_threshold final = Some t /\
       (forall acc_mag, calibrate final acc_mag = Some t) /\
       (forall threshold lines,
          window_output lib final = Some (threshold, lines) -> threshold = t)).
Proof.
  intro H. cbv zeta.
  destruct (process_sample_threshold lib self self' data H) as [Hidle Hwin].
  cbv zeta in Hidle, Hwin.
  split; [exact Hidle |]. split.
  - intros Hp Hnone. destruct (Hwin Hp) as [t [Ht Hcal]].
    unfold calibrate in Hcal. rewrite Hnone in Hcal.
    rewrite Ht, Hcal. split; [discriminate | reflexivity].
  - intros t Ht.
    assert (Ht' : acc_threshold self' = Some t)
      by (eapply process_sample_keeps_threshold; eassumption).
    split; [exact Ht' |]. intros items final Hrun.
    assert (Hfinal : acc_threshold final = Some t)
      by (eapply process_all_keeps_threshold; eassumption).
    split; [exact Hfinal |]. split.
    + intro acc_mag. apply calibrate_held. exact Hfinal.
    + intros threshold lines Hout. apply window_output_threshold in Hout.
      rewrite (calibrate_held final t _ Hfinal) in Hout. congruence.
Qed.

Lemma threshold_calibrated_once_witness :
  exists self',
    process_sample HaarLib.lib (run_from_start HaarLib.lib 499) (sample_at 499)
    = Some self' /\
    acc_threshold (run_from_start HaarLib.lib 499) = None /\
    acc_threshold self'
    = np_percentile
        (acc_mag_buffer (run_from_start HaarLib.lib 499)
         ++ [nth 7 (sample_at 499) 0])
        HolterConfig.ACC_THRESHOLD_PERCENTILE.
Proof.
  destruct (process_sample HaarLib.lib (run_from_start HaarLib.lib 499)
              (sample_at 499)) as [self' |] eqn:E;
    [| vm_compute in E; discriminate E].
  exists self'. split; [reflexivity |].
  assert (Hnone : acc_threshold (run_from_start HaarLib.lib 499) = None)
    by (vm_compute; reflexivity).
  split; [exact Hnone |].
  destruct (threshold_calibrated_once HaarLib.lib _ _ _ E) as [_ [Hfirst _]].
  apply Hfirst; [vm_compute; reflexivity | exact Hnone].
Defined.

(** ** The lines a window writes *)

Lemma filtered_line_tail (t a b c : Q) (ts f1 f2 f3 : list Q) (i : nat) :
  filtered_line (t :: ts) (a :: f1) (b :: f2) (c :: f3) (S i)
  = filtered_line ts f1 f2 f3 i.
Proof. reflexivity. Qed.

Lemma new_lines_zip (n : nat) : forall ts f1 f2 f3 : list Q,
  (n <= length ts)%nat -> (n <= length f1)%nat ->
  (n <= length f2)%nat -> (n <= length f3)%nat ->
  new_lines ts f1 f2 f3 n
  = Some (zip4 (firstn n ts) (firstn n f1) (firstn n f2) (firstn n f3)).
Proof.
  unfold new_lines. induction n as [| n IH]; intros ts f1 f2 f3 Ht H1 H2 H3.
  - reflexivity.
  - destruct ts as [| t ts]; [simpl in Ht; lia |].
    destruct f1 as [| a f1]; [simpl in H1; lia |].
    destruct f2 as [| b f2]; [simpl in H2; lia |].
    destruct f3 as [| c f3]; [simpl in H3; lia |].
    simpl in Ht, H1, H2, H3.
    cbn [seq mapM]. rewrite <- seq_shift, mapM_map.
    rewrite (mapM_ext _ (filtered_line ts f1 f2 f3))
      by (intro i; apply filtered_line_tail).
    rewrite IH by lia. reflexivity.
Qed.

Lemma zip4_length (ts f1 f2 f3 : list Q) (n : nat) :
  length ts = n -> length f1 = n -> length f2 = n -> length f3 = n ->
  length (zip4 ts f1 f2 f3) = n.
Proof.
  revert ts f1 f2 f3. induction n as [| n IH]; intros ts f1 f2 f3 Ht H1 H2 H3;
    destruct ts, f1, f2, f3; try discriminate; [reflexivity |].
  simpl in *. f_equal. apply IH; lia.
Qed.

Lemma zip4_timestamps (ts f1 f2 f3 : list Q) :
  length f1 = length ts -> length f2 = length ts -> length f3 = length ts ->
  map line_timestamp (zip4 ts f1 f2 f3) = ts.
Proof.
  revert f1 f2 f3. induction ts as [| t ts IH]; intros f1 f2 f3 H1 H2 H3.
  - reflexivity.
  - destruct f1, f2, f3; try discriminate. simpl in *.
    f_equal. apply IH; lia.
Qed.

Lemma np_percentile_nonempty (acc_mag : list Q) :
  acc_mag <> [] ->
  exists p, np_percentile acc_mag HolterConfig.ACC_THRESHOLD_PERCENTILE = Some p.
Proof.
  intro Hne. unfold np_percentile.
  destruct acc_mag as [| x rest]; [congruence |].
  cbn [length]. eexists. reflexivity.
Qed.

Lemma length_nonempty {A : Type} (l : list A) (n : nat) :
  length l = n -> (0 < n)%nat -> l <> [].
Proof.
  intros H Hn Hnil. subst l. simpl in H. lia.
Qed.

(** A window of [n] entries, [OVERLAP <= n], writes the first [n - OVERLAP]
    entries of the timestamps and of the three filtered channels. *)
Lemma window_output_lines (lib : PyLib) (self : WaveletProcessor) (n : nat) :
  filter_returns lib -> buffers_synced self n -> (0 < n)%nat ->
  exists threshold f1 f2 f3,
    calibrate self (acc_mag_buffer self) = Some threshold /\
    let motion_mask := detect_motion_segments (acc_mag_buffer self) threshold in
    adaptive_wavelet_filter lib (ecg_I_buffer self) motion_mask
      HolterConfig.WAVELET_TYPE HolterConfig.DECOMPOSITION_LEVEL = Some f1 /\
    adaptive_wavelet_filter lib (ecg_II_buffer self) motion_mask
      HolterConfig.WAVELET_TYPE HolterConfig.DECOMPOSITION_LEVEL = Some f2 /\
    adaptive_wavelet_filter lib (ecg_III_buffer self) motion_mask
      HolterConfig.WAVELET_TYPE HolterConfig.DECOMPOSITION_LEVEL = Some f3 /\
    length f1 = n /\ length f2 = n /\ length f3 = n /\
    let k := (n - HolterConfig.OVERLAP)%nat in
    window_output lib self
    = Some (threshold,
            zip4 (firstn k (timestamp_buffer self)) (firstn k f1)
                 (firstn k f2) (firstn k f3)).
Proof.
  intros Hlib [Ht [H1 [H2 [H3 Ha]]]] Hn.
  assert (Hcal : exists threshold,
             calibrate self (acc_mag_buffer self) = Some threshold).
  { unfold calibrate. destruct (acc_threshold self) as [t |].
    - exists t. reflexivity.
    - apply np_percentile_nonempty. eapply length_nonempty; eassumption. }
  destruct Hcal as [threshold Hcal].
  set (motion_mask := detect_motion_segments (acc_mag_buffer self) threshold).
  assert (Hrun : forall ecg, length ecg = n ->
            exists f, adaptive_wavelet_filter lib ecg motion_mask
                        HolterConfig.WAVELET_TYPE
                        HolterConfig.DECOMPOSITION_LEVEL = Some f /\
                      length f = n).
  { intros ecg Hlen.
    destruct (adaptive_wavelet_filter lib ecg motion_mask
                HolterConfig.WAVELET_TYPE HolterConfig.DECOMPOSITION_LEVEL)
      as [f |] eqn:E.
    - exists f. split; [reflexivity |].
      apply adaptive_wavelet_filter_some_length in E. congruence.
    - exfalso. eapply Hlib; [| exact E]. eapply length_nonempty; eassumption. }
  destruct (Hrun _ H1) as [f1 [E1 L1]].
  destruct (Hrun _ H2) as [f2 [E2 L2]].
  destruct (Hrun _ H3) as [f3 [E3 L3]].
  exists threshold, f1, f2, f3. cbv zeta. fold motion_mask.
  repeat (split; [assumption |]).
  unfold window_output. rewrite Hcal. cbn [bind]. fold motion_mask.
  rewrite E1, E2, E3. cbn [bind]. rewrite Ht.
  rewrite new_lines_zip by lia. reflexivity.
Qed.

(** The sample that fills the buffers: the window has exactly [WINDOW_SIZE]
    entries, it is filtered, its leading entries are written and then the
    buffers slide. *)
Lemma full_window_step (lib : PyLib) (self : WaveletProcessor)
  (timestamp ecg_I ecg_II ecg_III acc_x acc_y acc_z acc_mag : Q) :
  filter_returns lib -> reachable lib self ->
  let data :=
    [timestamp; ecg_I; ecg_II; ecg_III; acc_x; acc_y; acc_z; acc_mag] in
  let window :=
    append_sample (_save_raw_sample self data)
      timestamp ecg_I ecg_II ecg_III acc_mag in
  is_full window = true ->
  buffers_synced window HolterConfig.WINDOW_SIZE /\
  exists threshold f1 f2 f3 mid,
    calibrate window (acc_mag_buffer window) = Some threshold /\
    let motion_mask := detect_motion_segments (acc_mag_buffer window) threshold in
    adaptive_wavelet_filter lib (ecg_I_buffer window) motion_mask
      HolterConfig.WAVELET_TYPE HolterConfig.DECOMPOSITION_LEVEL = Some f1 /\
    adaptive_wavelet_filter lib (ecg_II_buffer window) motion_mask
      HolterConfig.WAVELET_TYPE HolterConfig.DECOMPOSITION_LEVEL = Some f2 /\
    adaptive_wavelet_filter lib (ecg_III_buffer window) motion_mask
      HolterConfig.WAVELET_TYPE HolterConfig.DECOMPOSITION_LEVEL = Some f3 /\
    length f1 = HolterConfig.WINDOW_SIZE /\
    length f2 = HolterConfig.WINDOW_SIZE /\
    length f3 = HolterConfig.WINDOW_SIZE /\
    let k := (HolterConfig.WINDOW_SIZE - HolterConfig.OVERLAP)%nat in
    let lines :=
      zip4 (firstn k (timestamp_buffer window)) (firstn k f1)
           (firstn k f2) (firstn k f3) in
    _process_window lib window = Some mid /\
    filtered_csv mid = filtered_csv self ++ lines /\
    timestamp_buffer mid = timestamp_buffer window /\
    process_sample lib self data = Some (slide mid).
Proof.
  intros Hlib Hreach data window Hfull.
  destruct (reachable_synced lib self Hreach) as [n [Hs Hn]].
  assert (Hw : buffers_synced window (S n))
    by (apply append_sample_synced; exact Hs).
  assert (HSn : S n = HolterConfig.WINDOW_SIZE).
  { unfold is_full in Hfull. apply Nat.leb_le in Hfull.
    destruct Hw as [_ [H2 _]]. rewrite H2 in Hfull. lia. }
  rewrite HSn in Hw. split; [exact Hw |].
  assert (Hpos : (0 < HolterConfig.WINDOW_SIZE)%nat) by lia.
  destruct (window_output_lines lib window _ Hlib Hw Hpos)
    as [threshold [f1 [f2 [f3 [Hcal [E1 [E2 [E3 [L1 [L2 [L3 Hout]]]]]]]]]]].
  cbv zeta in E1, E2, E3, Hout.
  exists threshold, f1, f2, f3. eexists.
  split; [exact Hcal |]. cbv zeta.
  repeat (split; [assumption |]).
  assert (Hmid : _process_window lib window = Some _)
    by (unfold _process_window; rewrite Hout; reflexivity).
  split; [exact Hmid |]. split; [reflexivity |]. split; [reflexivity |].
  change (process_sample lib self data)
    with (if is_full window
          then self0 <- _process_window lib window ;; Some (slide self0)
          else Some window).
  rewrite Hfull, Hmid. reflexivity.
Qed.

Lemma run_from_start_reachable (lib : PyLib) (count : nat) :
  reachable lib (run_from_start lib count).
Proof.
  unfold run_from_start.
  destruct (process_all lib WaveletProcessor_init (samples_from 0 count))
    as [self |] eqn:E.
  - eapply process_all_reachable; [apply reachable_init | exact E].
  - apply reachable_init.
Qed.

(** ** The stand-in library meets the contract *)

Lemma haar_dwt_nonempty (s : list Q) :
  s <> [] -> fst (HaarLib.dwt s) <> [] /\ snd (HaarLib.dwt s) <> [].
Proof.
  destruct s as [| a [| b rest]]; [congruence | |]; intros _.
  - split; discriminate.
  - cbn [HaarLib.dwt]. destruct (HaarLib.dwt rest) as [cA cD].
    split; discriminate.
Qed.

Lemma haar_wavedec_from_bands (level : nat) :
  forall (a : list Q) (details : list (list Q)),
    a <> [] -> Forall (fun band => band <> []) details ->
    Forall (fun band => band <> []) (HaarLib.wavedec_from a level details) /\
    HaarLib.wavedec_from a level details <> [].
Proof.
  induction level as [| level IH]; intros a details Ha Hd.
  - split; [constructor; assumption | discriminate].
  - cbn [HaarLib.wavedec_from].
    destruct (haar_dwt_nonempty a Ha) as [HA HD].
    destruct (HaarLib.dwt a) as [cA cD]. apply IH; [exact HA |].
    constructor; assumption.
Qed.

Lemma haar_idwt_nonempty (cA cD : list Q) :
  cA <> [] -> cD <> [] -> HaarLib.idwt cA cD <> [].
Proof.
  destruct cA, cD; try congruence. discriminate.
Qed.

Lemma haar_waverec_nonempty (ds : list (list Q)) :
  forall a, a <> [] -> Forall (fun band => band <> []) ds ->
            fold_left HaarLib.idwt ds a <> [].
Proof.
  induction ds as [| d ds IH]; intros a Ha Hd; [exact Ha |].
  apply Forall_cons_iff in Hd. destruct Hd as [Hd Hds].
  cbn [fold_left]. apply IH; [| exact Hds].
  apply haar_idwt_nonempty; assumption.
Qed.

Lemma haar_filter_returns : filter_returns HaarLib.lib.
Proof.
  intros ecg_signal motion_mask wavelet level Hne.
  destruct (haar_wavedec_from_bands level ecg_signal [] Hne (Forall_nil _))
    as [Hbands Hdec].
  change (HaarLib.wavedec_from ecg_signal level [])
    with (pywt_wavedec HaarLib.lib ecg_signal wavelet level) in Hbands, Hdec.
  destruct (filtered_coeffs_shape HaarLib.lib ecg_signal motion_mask wavelet
              level Hdec) as [finest [approximation [_ [Happ Hshape]]]].
  set (coeffs := pywt_wavedec HaarLib.lib ecg_signal wavelet level) in *.
  set (cf := approximation :: _) in Hshape.
  assert (Hrec : pywt_waverec HaarLib.lib cf wavelet <> []).
  { rewrite Forall_forall in Hbands.
    change (fold_left HaarLib.idwt
              (map (filter_band HaarLib.lib coeffs
                      (threshold_base_of HaarLib.lib finest (length ecg_signal))
                      motion_mask)
                   (seq 1 (length coeffs - 1)))
              approximation <> []).
    apply haar_waverec_nonempty.
    - apply Hbands. eapply nth_error_In. exact Happ.
    - apply Forall_forall. intros band Hin. apply in_map_iff in Hin.
      destruct Hin as [i [Hband Hi]]. apply in_seq in Hi. subst band.
      change (map (fun x => Qred (HaarLib.threshold1 soft
                (band_threshold
                   (threshold_base_of HaarLib.lib finest (length ecg_signal))
                   motion_mask (length coeffs) i) x))
                (nth i coeffs []) <> []).
      intro Hnil. apply map_eq_nil in Hnil. revert Hnil.
      apply Hbands. apply nth_In.
      assert (Hlen : (1 <= length coeffs)%nat)
        by (destruct coeffs; [congruence | simpl; lia]).
      lia. }
  destruct (adjust_length_spec _ (length ecg_signal) (or_introl Hrec))
    as [out [Hout _]].
  unfold adaptive_wavelet_filter. rewrite Hshape. cbn [bind].
  rewrite Hout. discriminate.
Qed.

(** ** The window orchestrator *)

(** C2: a sample that completes a window makes [process_sample] append
    exactly [WINDOW_SIZE - OVERLAP] lines to the filtered file; a sample that
    completes none appends nothing. *)
Theorem emitted_record_count (lib : PyLib) (self : WaveletProcessor)
  (timestamp ecg_I ecg_II ecg_III acc_x acc_y acc_z acc_mag : Q) :
  filter_returns lib -> reachable lib self ->
  let data :=
    [timestamp; ecg_I; ecg_II; ecg_III; acc_x; acc_y; acc_z; acc_mag] in
  let window :=
    append_sample (_save_raw_sample self data)
      timestamp ecg_I ecg_II ecg_III acc_mag in
  (is_full window = true ->
   exists self' lines,
     process_sample lib self data = Some self' /\
     filtered_csv self' = filtered_csv self ++ lines /\
     length lines = (HolterConfig.WINDOW_SIZE - HolterConfig.OVERLAP)%nat) /\
  (is_full window = false ->
   exists self',
     process_sample lib self data = Some self' /\
     filtered_csv self' = filtered_csv self).
Proof.
  intros Hlib Hreach data window. split; intro Hfull.
  - destruct (full_window_step lib self timestamp ecg_I ecg_II ecg_III
                acc_x acc_y acc_z acc_mag Hlib Hreach Hfull)
      as [[Ht _] [threshold [f1 [f2 [f3 [mid H]]]]]].
    destruct H as [_ [_ [_ [_ [L1 [L2 [L3 [_ [Hcsv [_ Hstep]]]]]]]]]].
    cbv zeta in Hcsv.
    exists (slide mid). eexists. split; [exact Hstep |].
    split; [exact Hcsv |].
    apply zip4_length; rewrite length_firstn; fold window;
      unfold HolterConfig.WINDOW_SIZE, HolterConfig.OVERLAP in *; lia.
  - exists window. split; [| reflexivity].
    change (process_sample lib self data)
      with (if is_full window
            then self0 <- _process_window lib window ;; Some (slide self0)
            else Some window).
    rewrite Hfull. reflexivity.
Qed.

Lemma emitted_record_count_witness :
  exists self' lines,
    process_sample HaarLib.lib (run_from_start HaarLib.lib 499)
      [499; 0; 0; 0; 0; 0; 0; 0] = Some self' /\
    filtered_csv self' = filtered_csv (run_from_start HaarLib.lib 499) ++ lines /\
    length lines = (HolterConfig.WINDOW_SIZE - HolterConfig.OVERLAP)%nat.
Proof.
  apply (emitted_record_count HaarLib.lib (run_from_start HaarLib.lib 499)
           499 0 0 0 0 0 0 0).
  - exact haar_filter_returns.
  - apply run_from_start_reachable.
  - vm_compute. reflexivity.
Defined.

(** C1 as stated fails on the second window of a session.  After 749
    samples with timestamps 0..748 the sample with timestamp 749 completes
    the window 250..749, whose last [N - OVERLAP] entries are 500..749; the
    lines written carry the timestamps 250..499. *)
Lemma second_window_writes_leading_entries :
  let self := run_from_start HaarLib.lib 749 in
  let window := timestamp_buffer self ++ [749] in
  window = timestamps_from 250 500 /\
  option_map
    (fun self' =>
       map line_timestamp
         (skipn (length (filtered_csv self)) (filtered_csv self')))
    (process_sample HaarLib.lib self (sample_at 749))
  = Some (timestamps_from 250 250) /\
  py_tail_slice (length window - HolterConfig.OVERLAP) window
  = timestamps_from 500 250 /\
  timestamps_from 250 250 <> timestamps_from 500 250.
Proof.
  split; [vm_compute; reflexivity |].
  split; [vm_compute; reflexivity |].
  split; [vm_compute; reflexivity |].
  vm_compute. discriminate.
Qed.

(** C1, amended: for every completed window of [N] entries the orchestrator
    writes, in buffer order, exactly the first [N - OVERLAP] entries of each
    filtered channel, each with the timestamp of the same index, before the
    buffers slide; these are the entries the slide then drops. *)
Theorem window_emits_leading_entries (lib : PyLib) (self : WaveletProcessor)
  (timestamp ecg_I ecg_II ecg_III acc_x acc_y acc_z acc_mag : Q) :
  filter_returns lib -> reachable lib self ->
  let data :=
    [timestamp; ecg_I; ecg_II; ecg_III; acc_x; acc_y; acc_z; acc_mag] in
  let window :=
    append_sample (_save_raw_sample self data)
      timestamp ecg_I ecg_II ecg_III acc_mag in
  is_full window = true ->
  exists threshold f1 f2 f3 mid,
    calibrate window (acc_mag_buffer window) = Some threshold /\
    let motion_mask := detect_motion_segments (acc_mag_buffer window) threshold in
    adaptive_wavelet_filter lib (ecg_I_buffer window) motion_mask
      HolterConfig.WAVELET_TYPE HolterConfig.DECOMPOSITION_LEVEL = Some f1 /\
    adaptive_wavelet_filter lib (ecg_II_buffer window) motion_mask
      HolterConfig.WAVELET_TYPE HolterConfig.DECOMPOSITION_LEVEL = Some f2 /\
    adaptive_wavelet_filter lib (ecg_III_buffer window) motion_mask
      HolterConfig.WAVELET_TYPE HolterConfig.DECOMPOSITION_LEVEL = Some f3 /\
    let N := length (timestamp_buffer window) in
    let k := (N - HolterConfig.OVERLAP)%nat in
    let lines :=
      zip4 (firstn k (timestamp_buffer window)) (firstn k f1)
           (firstn k f2) (firstn k f3) in
    length lines = k /\
    map line_timestamp lines = firstn k (timestamp_buffer window) /\
    _process_window lib window = Some mid /\
    filtered_csv mid = filtered_csv self ++ lines /\
    timestamp_buffer mid = timestamp_buffer window /\
    process_sample lib self data = Some (slide mid) /\
    timestamp_buffer window
    = map line_timestamp lines ++ timestamp_buffer (slide mid).
Proof.
  intros Hlib Hreach data window Hfull.
  destruct (full_window_step lib self timestamp ecg_I ecg_II ecg_III
              acc_x acc_y acc_z acc_mag Hlib Hreach Hfull)
    as [[Ht _] [threshold [f1 [f2 [f3 [mid H]]]]]].
  unfold window, data in *. clear window data. cbv zeta in H.
  set (window := append_sample _ timestamp ecg_I ecg_II ecg_III acc_mag) in *.
  destruct H as [Hcal [E1 [E2 [E3 [L1 [L2 [L3 [Hmid [Hcsv [Hbuf Hstep]]]]]]]]]].
  exists threshold, f1, f2, f3, mid. cbv zeta. rewrite Ht.
  assert (Hk : (HolterConfig.WINDOW_SIZE - HolterConfig.OVERLAP <= 500)%nat)
    by (unfold HolterConfig.WINDOW_SIZE, HolterConfig.OVERLAP; lia).
  assert (Hts : map line_timestamp
                  (zip4 (firstn (HolterConfig.WINDOW_SIZE - HolterConfig.OVERLAP)
                           (timestamp_buffer window))
                        (firstn (HolterConfig.WINDOW_SIZE - HolterConfig.OVERLAP) f1)
                        (firstn (HolterConfig.WINDOW_SIZE - HolterConfig.OVERLAP) f2)
                        (firstn (HolterConfig.WINDOW_SIZE - HolterConfig.OVERLAP) f3))
                = firstn (HolterConfig.WINDOW_SIZE - HolterConfig.OVERLAP)
                    (timestamp_buffer window)).
  { apply zip4_timestamps; rewrite !length_firstn;
      unfold HolterConfig.WINDOW_SIZE in *; lia. }
  repeat (split; [assumption |]).
  split.
  { apply zip4_length; rewrite length_firstn;
      unfold HolterConfig.WINDOW_SIZE, HolterConfig.OVERLAP in *; lia. }
  repeat (split; [assumption |]).
  rewrite Hts. unfold slide. cbn [timestamp_buffer]. rewrite Hbuf.
  unfold py_tail_slice, HolterConfig.OVERLAP at 2. rewrite Ht.
  change (HolterConfig.WINDOW_SIZE - 250)%nat
    with (HolterConfig.WINDOW_SIZE - HolterConfig.OVERLAP)%nat.
  symmetry. apply firstn_skipn.
Qed.

Lemma window_emits_leading_entries_witness :
  let self := run_from_start HaarLib.lib 749 in
  let window :=
    append_sample (_save_raw_sample self [749; 0; 0; 0; 0; 0; 0; 0])
      749 0 0 0 0 in
  is_full window = true /\
  exists mid lines,
    _process_window HaarLib.lib window = Some mid /\
    filtered_csv mid = filtered_csv self ++ lines /\
    map line_timestamp lines
    = firstn (length (timestamp_buffer window) - HolterConfig.OVERLAP)
        (timestamp_buffer window) /\
    timestamp_buffer window
    = map line_timestamp lines ++ timestamp_buffer (slide mid).
Proof.
  intros self window.
  assert (Hfull : is_full window = true) by (vm_compute; reflexivity).
  split; [exact Hfull |].
  destruct (window_emits_leading_entries HaarLib.lib self 749 0 0 0 0 0 0 0
              haar_filter_returns (run_from_start_reachable HaarLib.lib 749)
              Hfull)
    as [threshold [f1 [f2 [f3 [mid H]]]]].
  cbv zeta in H.
  destruct H as [_ [_ [_ [_ [_ [Hts [Hmid [Hcsv [_ [_ Hsplit]]]]]]]]]].
  exists mid. eexists. split; [exact Hmid |]. split; [exact Hcsv |].
  split; [exact Hts | exact Hsplit].
Defined.

(** ** The first window *)

Lemma low_motion_coeffs_eq (lib : PyLib) (ecg_signal : list Q)
  (motion_mask : list bool) (wavelet : string) (level : nat) :
  high_motion motion_mask = false ->
  filtered_coeffs lib ecg_signal motion_mask wavelet level
  = low_motion_coeffs lib ecg_signal wavelet level.
Proof.
  intro Hhm. unfold filtered_coeffs, low_motion_coeffs.
  destruct (py_last (pywt_wavedec lib ecg_signal wavelet level))
    as [finest |]; [| reflexivity].
  cbn [bind].
  destruct (py_index (pywt_wavedec lib ecg_signal wavelet level) 0)
    as [approximation |]; [| reflexivity].
  cbn [bind]. do 2 f_equal. apply map_ext. intro i.
  unfold filter_band, apply_wavelet_thresholding, band_threshold.
  rewrite Hhm. reflexivity.
Qed.

Lemma low_motion_filter_eq (lib : PyLib) (ecg_signal : list Q)
  (motion_mask : list bool) (wavelet : string) (level : nat) :
  high_motion motion_mask = false ->
  adaptive_wavelet_filter lib ecg_signal motion_mask wavelet level
  = low_motion_filter lib ecg_signal wavelet level.
Proof.
  intro Hhm. unfold adaptive_wavelet_filter, low_motion_filter.
  rewrite (low_motion_coeffs_eq lib _ _ _ _ Hhm). reflexivity.
Qed.

(** A window whose mask fails the motion test is computed with the
    low-motion multiplier in all three channels. *)
Lemma window_output_low (lib : PyLib) (self : WaveletProcessor)
  (threshold : Q) :
  calibrate self (acc_mag_buffer self) = Some threshold ->
  high_motion (detect_motion_segments (acc_mag_buffer self) threshold) = false ->
  window_output lib self
  = (lines <- low_motion_window lib self ;; Some (threshold, lines)).
Proof.
  intros Hcal Hhm. unfold window_output, low_motion_window.
  rewrite Hcal. cbn [bind].
  rewrite !(low_motion_filter_eq lib _ _ _ _ Hhm).
  destruct (low_motion_filter lib (ecg_I_buffer self) _ _); [| reflexivity].
  destruct (low_motion_filter lib (ecg_II_buffer self) _ _); [| reflexivity].
  destruct (low_motion_filter lib (ecg_III_buffer self) _ _); reflexivity.
Qed.

(** C10: on the first window that is processed (the threshold is still
    unset) the orchestrator sets the threshold to the 75th percentile of the
    500 acceleration magnitudes of that window; at most 125 of them, a
    quarter, are strictly above it, so the motion ratio is at most 0.25 and
    the test [> 0.3] fails.  Each of the three calls of the filter therefore
    hands to the reconstruction the coefficient set of the low-motion
    multiplier, and the lines [_process_window] writes, the ones
    [process_sample] leaves in the filtered file, are those of the
    low-motion filter. *)
Theorem first_window_low_motion (lib : PyLib) (self : WaveletProcessor)
  (timestamp ecg_I ecg_II ecg_III acc_x acc_y acc_z acc_mag : Q) :
  filter_returns lib -> reachable lib self -> acc_threshold self = None ->
  let data :=
    [timestamp; ecg_I; ecg_II; ecg_III; acc_x; acc_y; acc_z; acc_mag] in
  let window :=
    append_sample (_save_raw_sample self data)
      timestamp ecg_I ecg_II ecg_III acc_mag in
  is_full window = true ->
  exists threshold lines mid,
    np_percentile (acc_mag_buffer window) HolterConfig.ACC_THRESHOLD_PERCENTILE
    = Some threshold /\
    let motion_mask := detect_motion_segments (acc_mag_buffer window) threshold in
    (4 * count_occ bool_dec motion_mask true <= length motion_mask)%nat /\
    np_mean_mask motion_mask <= 1 # 4 /\
    motion_multiplier motion_mask = HolterConfig.THRESHOLD_MULTIPLIER_LOW_MOTION /\
    (forall ecg_signal,
       filtered_coeffs lib ecg_signal motion_mask
         HolterConfig.WAVELET_TYPE HolterConfig.DECOMPOSITION_LEVEL
       = low_motion_coeffs lib ecg_signal
           HolterConfig.WAVELET_TYPE HolterConfig.DECOMPOSITION_LEVEL /\
       adaptive_wavelet_filter lib ecg_signal motion_mask
         HolterConfig.WAVELET_TYPE HolterConfig.DECOMPOSITION_LEVEL
       = low_motion_filter lib ecg_signal
           HolterConfig.WAVELET_TYPE HolterConfig.DECOMPOSITION_LEVEL) /\
    low_motion_window lib window = Some lines /\
    window_output lib window = Some (threshold, lines) /\
    _process_window lib window = Some mid /\
    acc_threshold mid = Some threshold /\
    filtered_csv mid = filtered_csv self ++ lines /\
    process_sample lib self data = Some (slide mid) /\
    filtered_csv (slide mid) = filtered_csv self ++ lines.
Proof.
  intros Hlib Hreach Hnone data window Hfull.
  destruct (full_window_step lib self timestamp ecg_I ecg_II ecg_III
              acc_x acc_y acc_z acc_mag Hlib Hreach Hfull)
    as [Hw [threshold [f1 [f2 [f3 [mid H]]]]]].
  unfold window, data in *. clear window data. cbv zeta in H.
  set (data := [timestamp; ecg_I; ecg_II; ecg_III; acc_x; acc_y; acc_z; acc_mag])
    in *.
  set (window := append_sample (_save_raw_sample self data)
                   timestamp ecg_I ecg_II ecg_III acc_mag) in *.
  destruct H as [Hcal [_ [_ [_ [_ [_ [_ [Hmid [_ [_ Hstep]]]]]]]]]].
  assert (Hlen : length (acc_mag_buffer window) = 500%nat)
    by (destruct Hw as [_ [_ [_ [_ H5]]]]; exact H5).
  assert (Hp : np_percentile (acc_mag_buffer window)
                 HolterConfig.ACC_THRESHOLD_PERCENTILE = Some threshold).
  { rewrite <- Hcal. unfold calibrate.
    change (acc_threshold window) with (acc_threshold self).
    rewrite Hnone. reflexivity. }
  set (motion_mask := detect_motion_segments (acc_mag_buffer window) threshold).
  assert (Hmask : length motion_mask = 500%nat)
    by (unfold motion_mask, detect_motion_segments; rewrite length_map; exact Hlen).
  assert (Hcount : (count_occ bool_dec motion_mask true <= 125)%nat)
    by (apply (first_window_motion_count _ _ Hlen Hp)).
  assert (Hmean : np_mean_mask motion_mask <= 1 # 4)
    by (apply quarter_mask_mean; assumption).
  assert (Hhm : high_motion motion_mask = false)
    by (apply Qgtb_le; lra).
  pose proof (window_output_low lib window threshold Hcal Hhm) as Hout.
  pose proof Hmid as Hrun. apply process_window_inv in Hmid.
  destruct Hmid as [threshold' [lines [Hout' Hmid]]].
  rewrite Hout' in Hout. symmetry in Hout. apply bind_some in Hout.
  destruct Hout as [lines' [Hlow Hout]]. injection Hout as Ht Hl.
  subst threshold' lines'.
  exists threshold, lines, mid. cbv zeta. fold motion_mask.
  split; [exact Hp |]. split; [lia |]. split; [exact Hmean |].
  split; [unfold motion_multiplier; rewrite Hhm; reflexivity |].
  split.
  { intro ecg_signal. split;
      [apply low_motion_coeffs_eq | apply low_motion_filter_eq]; exact Hhm. }
  split; [exact Hlow |]. split; [exact Hout' |].
  split; [exact Hrun |]. subst mid.
  split; [reflexivity |]. split; [reflexivity |].
  split; [exact Hstep | reflexivity].
Qed.

Lemma moving_session_reachable (lib : PyLib) (count : nat) :
  reachable lib (moving_session lib count).
Proof.
  unfold moving_session.
  destruct (process_all lib WaveletProcessor_init
              (map moving_sample_at (seq 0 count))) as [self |] eqn:E.
  - eapply process_all_reachable; [apply reachable_init | exact E].
  - apply reachable_init.
Qed.

Lemma first_window_low_motion_witness :
  let self := moving_session HaarLib.lib 499 in
  let window :=
    append_sample (_save_raw_sample self [499; 4; 1; 3; 0; 0; 1; 3])
      499 4 1 3 3 in
  acc_threshold self = None /\
  is_full window = true /\
  high_motion (detect_motion_segments (acc_mag_buffer window) 0) = true /\
  adaptive_wavelet_filter HaarLib.lib (ecg_I_buffer window)
    (detect_motion_segments (acc_mag_buffer window) 0)
    HolterConfig.WAVELET_TYPE HolterConfig.DECOMPOSITION_LEVEL
  <> low_motion_filter HaarLib.lib (ecg_I_buffer window)
       HolterConfig.WAVELET_TYPE HolterConfig.DECOMPOSITION_LEVEL /\
  exists threshold lines mid,
    np_percentile (acc_mag_buffer window) HolterConfig.ACC_THRESHOLD_PERCENTILE
    = Some threshold /\
    low_motion_window HaarLib.lib window = Some lines /\
    _process_window HaarLib.lib window = Some mid /\
    filtered_csv mid = lines /\
    process_sample HaarLib.lib self [499; 4; 1; 3; 0; 0; 1; 3]
    = Some (slide mid).
Proof.
  intros self window.
  assert (Hnone : acc_threshold self = None) by (vm_compute; reflexivity).
  assert (Hfull : is_full window = true) by (vm_compute; reflexivity).
  split; [exact Hnone |]. split; [exact Hfull |].
  split; [vm_compute; reflexivity |].
  split; [intro Hsame; vm_compute in Hsame; discriminate Hsame |].
  destruct (first_window_low_motion HaarLib.lib self 499 4 1 3 0 0 1 3
              haar_filter_returns (moving_session_reachable HaarLib.lib 499)
              Hnone Hfull)
    as [threshold [lines [mid H]]].
  cbv zeta in H.
  destruct H as [Hp [_ [_ [_ [_ [Hlow [_ [Hmid [_ [Hcsv [Hstep _]]]]]]]]]]].
  exists threshold, lines, mid.
  split; [exact Hp |]. split; [exact Hlow |]. split; [exact Hmid |].
  split; [| exact Hstep].
  rewrite Hcsv.
  assert (Hempty : filtered_csv self = []) by (vm_compute; reflexivity).
  rewrite Hempty. reflexivity.
Defined.

(** ** Ingestion *)

Lemma queue_grew {A : Type} (q : list A) (x : A) : q <> q ++ [x].
Proof.
  intro H. apply (f_equal (@length A)) in H.
  rewrite length_app in H. simpl in H. lia.
Qed.

(** C9 as stated fails on the message ["1,2,3"]: its three fields all parse,
    so no [ValueError] is raised; the message is not put in the queue, and
    nothing is printed, no warning either. *)
Lemma short_message_dropped_silently :
  let self := {| data_queue := []; console := [] |} in
  let after := receive_message HaarLib.float self "1,2,3" in
  parse_values HaarLib.float (strip "1,2,3") = Some [1; 2; 3] /\
  data_queue after = [] /\
  console after = [] /\
  ~ In (WarningLine (strip "1,2,3")) (console after).
Proof.
  split; [vm_compute; reflexivity |].
  split; [vm_compute; reflexivity |].
  split; [vm_compute; reflexivity |].
  vm_compute. intro H. exact H.
Qed.

(** C9, amended: a message is put in the queue if and only if it does not
    begin with ERROR or SYSTEM and all its comma-separated fields parse as
    floats and there are exactly 8 of them.  A message that begins with ERROR
    or SYSTEM is printed as control text and never queued.  Any other message
    that does not give exactly 8 floats is never queued: with a warning when
    a field does not parse, without any output when all fields parse and
    their number is not 8. *)
Theorem receive_message_outcome
  (py_float : string -> option Q) (self : UDPReceiver) (decoded : string) :
  let message := strip decoded in
  let control :=
    orb (startswith message "ERROR") (startswith message "SYSTEM") in
  let after := receive_message py_float self decoded in
  ((exists values, data_queue after = data_queue self ++ [values]) <->
   (control = false /\
    exists values,
      parse_values py_float message = Some values /\ length values = 8%nat)) /\
  (control = true ->
   data_queue after = data_queue self /\
   console after = console self ++ [SystemLine message]) /\
  (control = false ->
   forall values,
     parse_values py_float message = Some values ->
     (length values = 8%nat ->
      data_queue after = data_queue self ++ [values] /\
      console after = console self) /\
     (length values <> 8%nat -> after = self)) /\
  (control = false ->
   parse_values py_float message = None ->
   data_queue after = data_queue self /\
   console after = console self ++ [WarningLine message]).
Proof.
  cbv zeta. unfold receive_message.
  destruct (orb (startswith (strip decoded) "ERROR")
                (startswith (strip decoded) "SYSTEM")) eqn:Hc.
  - cbn [data_queue console]. split; [split |].
    + intros [values H]. exfalso. exact (queue_grew _ _ H).
    + intros [H _]. discriminate H.
    + split; [intros _; split; reflexivity |].
      split; intro H; discriminate H.
  - destruct (parse_values py_float (strip decoded)) as [values |] eqn:Hp.
    + destruct (length values =? 8)%nat eqn:Hl.
      * apply Nat.eqb_eq in Hl. cbn [data_queue console].
        split; [split |].
        -- intros _. split; [reflexivity |]. exists values. auto.
        -- intros _. exists values. reflexivity.
        -- split; [intro H; discriminate H |]. split.
           ++ intros _ values' Hv. injection Hv as Hv. subst values'.
              split; [intros _; split; reflexivity | intro Hne; contradiction].
           ++ intros _ H. discriminate H.
      * apply Nat.eqb_neq in Hl. split; [split |].
        -- intros [values' H]. exfalso. exact (queue_grew _ _ H).
        -- intros [_ [values' [Hv Hlen]]]. injection Hv as Hv. subst values'.
           contradiction.
        -- split; [intro H; discriminate H |]. split.
           ++ intros _ values' Hv. injection Hv as Hv. subst values'.
              split; [intro Heq; contradiction | intros _; reflexivity].
           ++ intros _ H. discriminate H.
    + cbn [data_queue console]. split; [split |].
      * intros [values H]. exfalso. exact (queue_grew _ _ H).
      * intros [_ [values [Hv _]]]. discriminate Hv.
      * split; [intro H; discriminate H |]. split.
        -- intros _ values Hv. discriminate Hv.
        -- intros _ _. split; reflexivity.
Qed.

Lemma receive_message_outcome_witness :
  let self := {| data_queue := []; console := [] |} in
  let decoded := "1000.01,0.12,0.15,0.10,0.01,0.02,0.98,0.981"%string in
  let after := receive_message HaarLib.float self decoded in
  data_queue after
  = [[100001 # 100; 12 # 100; 15 # 100; 10 # 100; 1 # 100; 2 # 100;
      98 # 100; 981 # 1000]] /\
  console after = [].
Proof.
  intros self decoded after.
  destruct (receive_message_outcome HaarLib.float self decoded)
    as [_ [_ [Hparsed _]]].
  destruct (Hparsed eq_refl
              [100001 # 100; 12 # 100; 15 # 100; 10 # 100; 1 # 100; 2 # 100;
               98 # 100; 981 # 1000]) as [Hput _].
  - vm_compute. reflexivity.
  - exact (Hput eq_refl).
Defined.

(** ** Worked examples *)

(** A disconnect notice is printed as control text and leaves the queue
    alone. *)
Example control_message_is_printed :
  receive_message HaarLib.float {| data_queue := []; console := [] |}
    "ERROR,disconnect"
  = {| data_queue := []; console := [SystemLine "ERROR,disconnect"] |}.
Proof. reflexivity. Qed.

(** A field that is no number raises [ValueError]: a warning, nothing
    queued. *)
Example unparsable_message_is_warned :
  receive_message HaarLib.float {| data_queue := []; console := [] |}
    "1,2,x,4,5,6,7,8"
  = {| data_queue := []; console := [WarningLine "1,2,x,4,5,6,7,8"] |}.
Proof. reflexivity. Qed.

(** 500 samples at rest: one window, 250 lines written with the timestamps
    0..249, 250 entries kept, the threshold calibrated at 0. *)
Example session_of_one_window :
  let self := run_from_start HaarLib.lib 500 in
  map line_timestamp (filtered_csv self) = timestamps_from 0 250 /\
  timestamp_buffer self = timestamps_from 250 250 /\
  length (raw_csv self) = 500%nat /\
  option_map Qred (acc_threshold self) = Some 0.
Proof.
  repeat split; vm_compute; reflexivity.
Qed.

(** An odd length makes the reconstruction one sample too long; the filter
    cuts it back. *)
Example odd_length_is_truncated :
  length (pywt_waverec HaarLib.lib
            (pywt_wavedec HaarLib.lib [1; 2; 3; 4; 5] "db4" 2) "db4") = 6%nat /\
  option_map (@length Q)
    (adaptive_wavelet_filter HaarLib.lib [1; 2; 3; 4; 5]
       [false; false; false; false; false] "db4" 2) = Some 5%nat.
Proof.
  split; vm_compute; reflexivity.
Qed.

(** A reconstruction that is too short is extended with its last sample. *)
Example short_reconstruction_is_padded :
  adjust_length [1; 2; 3] 5 = Some [1; 2; 3; 3; 3] /\
  adjust_length [] 2 = None.
Proof.
  split; reflexivity.
Qed.

(** * Further properties *)

(** ** The filter *)

(** X2: the motion mask reaches the filter only through the test
    [np.mean(motion_mask) > 0.3]: two masks with the same verdict give the
    same output, sample for sample. *)
Theorem filter_sees_only_the_verdict
  (lib : PyLib) (ecg_signal : list Q) (mask1 mask2 : list bool)
  (wavelet : string) (level : nat) :
  high_motion mask1 = high_motion mask2 ->
  adaptive_wavelet_filter lib ecg_signal mask1 wavelet level
  = adaptive_wavelet_filter lib ecg_signal mask2 wavelet level.
Proof.
  intro Hv.
  assert (Hcf : filtered_coeffs lib ecg_signal mask1 wavelet level
                = filtered_coeffs lib ecg_signal mask2 wavelet level).
  { unfold filtered_coeffs.
    destruct (py_last (pywt_wavedec lib ecg_signal wavelet level))
      as [finest |]; [| reflexivity].
    cbn [bind].
    destruct (py_index (pywt_wavedec lib ecg_signal wavelet level) 0)
      as [approximation |]; [| reflexivity].
    cbn [bind]. do 2 f_equal. apply map_ext. intro i.
    unfold filter_band, band_threshold. rewrite Hv. reflexivity. }
  unfold adaptive_wavelet_filter. rewrite Hcf. reflexivity.
Qed.

Lemma filter_sees_only_the_verdict_witness :
  high_motion [true; true; false; false] = high_motion [true; true; true; true] /\
  adaptive_wavelet_filter HaarLib.lib [4; 2; 6; 9] [true; true; false; false]
    "db4" 2
  = adaptive_wavelet_filter HaarLib.lib [4; 2; 6; 9] [true; true; true; true]
      "db4" 2.
Proof.
  assert (Hv : high_motion [true; true; false; false]
               = high_motion [true; true; true; true])
    by (vm_compute; reflexivity).
  split; [exact Hv |].
  apply (filter_sees_only_the_verdict HaarLib.lib [4; 2; 6; 9]
           [true; true; false; false] [true; true; true; true] "db4" 2 Hv).
Defined.




Lemma level_factor_step (n i : nat) :
  (i < n)%nat -> level_factor n i == (3 # 2) * level_factor n (S i).
Proof.
  intro Hi. unfold level_factor.
  replace (Z.of_nat (n - i)) with (1 + Z.of_nat (n - S i))%Z by lia.
  rewrite Qpower_plus by discriminate. reflexivity.
Qed.

Lemma band_threshold_pos (T0 : Q) (motion_mask : list bool) (n i : nat) :
  0 < T0 -> 0 < band_threshold T0 motion_mask n i.
Proof.
  intro HT0. unfold band_threshold.
  pose proof (level_factor_pos n i) as Hpos.
  destruct (high_motion motion_mask);
    apply Qmult_lt_0_compat; try exact Hpos;
    apply Qmult_lt_0_compat; try exact HT0; reflexivity.
Qed.

(** X4: within one call of the filter the threshold never goes up from a
    detail band to the next finer one, whatever the motion verdict, and with
    a positive base threshold it goes strictly down: the coarsest band is
    thresholded hardest, the finest least. *)
Theorem finer_bands_lower_thresholds
  (T0 : Q) (motion_mask : list bool) (ncoeffs i : nat) :
  (i < ncoeffs)%nat ->
  (0 <= T0 ->
   band_threshold T0 motion_mask ncoeffs (S i)
   <= band_threshold T0 motion_mask ncoeffs i) /\
  (0 < T0 ->
   band_threshold T0 motion_mask ncoeffs (S i)
   < band_threshold T0 motion_mask ncoeffs i).
Proof.
  intro Hi.
  assert (Hstep : band_threshold T0 motion_mask ncoeffs i
                  == (3 # 2) * band_threshold T0 motion_mask ncoeffs (S i)).
  { unfold band_threshold.
    destruct (high_motion motion_mask);
      rewrite (level_factor_step ncoeffs i Hi); ring. }
  split.
  - intro HT0. rewrite Hstep.
    assert (Hnn : 0 <= band_threshold T0 motion_mask ncoeffs (S i)).
    { unfold band_threshold.
      pose proof (level_factor_pos ncoeffs (S i)) as Hpos.
      destruct (high_motion motion_mask);
        apply Qmult_le_0_compat; try (apply Qlt_le_weak; exact Hpos);
        apply Qmult_le_0_compat; try exact HT0; discriminate. }
    lra.
  - intro HT0. rewrite Hstep.
    pose proof (band_threshold_pos T0 motion_mask ncoeffs (S i) HT0). lra.
Qed.

Lemma finer_bands_lower_thresholds_witness :
  band_threshold 2 [true; false] 6 2 < band_threshold 2 [true; false] 6 1 /\
  band_threshold 0 [true; false] 6 2 <= band_threshold 0 [true; false] 6 1.
Proof.
  split.
  - apply (finer_bands_lower_thresholds 2 [true; false] 6 1); [lia | reflexivity].
  - apply (finer_bands_lower_thresholds 0 [true; false] 6 1); [lia | discriminate].
Defined.

(** ** The motion detector *)

(** X5: the mask has one entry per sample, and raising the threshold never
    flags a sample that the lower threshold left alone: sample by sample, and
    so in the count. *)
Theorem higher_threshold_flags_fewer (acc_magnitude : list Q) (t1 t2 : Q) :
  t1 <= t2 ->
  length (detect_motion_segments acc_magnitude t2) = length acc_magnitude /\
  (forall i,
     nth i (detect_motion_segments acc_magnitude t2) false = true ->
     nth i (detect_motion_segments acc_magnitude t1) false = true) /\
  (count_above t2 acc_magnitude <= count_above t1 acc_magnitude)%nat.
Proof.
  intro Hle.
  assert (Hpoint : forall a, Qgtb a t2 = true -> Qgtb a t1 = true).
  { intros a H. apply Qgtb_lt in H. apply Qgtb_lt.
    eapply Qle_lt_trans; eassumption. }
  split; [apply length_map |]. split.
  - induction acc_magnitude as [| a rest IH]; intros [| i] H;
      try discriminate H.
    + cbn in *. apply Hpoint. exact H.
    + cbn in *. apply IH. exact H.
  - induction acc_magnitude as [| a rest IH]; [apply Nat.le_refl |].
    rewrite !count_above_cons.
    destruct (Qgtb a t2) eqn:E2.
    + rewrite (Hpoint a E2). lia.
    + destruct (Qgtb a t1); lia.
Qed.

Lemma higher_threshold_flags_fewer_witness :
  Nat.le (count_above 2 [1; 3; 2; 5]) (count_above 1 [1; 3; 2; 5]).
Proof.
  destruct (higher_threshold_flags_fewer [1; 3; 2; 5] 1 2) as [_ [_ H]].
  - discriminate.
  - exact H.
Defined.

Lemma no_flag_low_motion (motion_mask : list bool) :
  count_occ bool_dec motion_mask true = 0%nat ->
  high_motion motion_mask = false.
Proof.
  intro H. unfold high_motion. apply Qgtb_le. unfold np_mean_mask.
  rewrite H. unfold Qdiv. rewrite Qmult_0_l. discriminate.
Qed.

Lemma nothing_above (acc_magnitude : list Q) (threshold : Q) :
  Forall (fun a => a <= threshold) acc_magnitude ->
  detect_motion_segments acc_magnitude threshold
  = repeat false (length acc_magnitude).
Proof.
  induction 1 as [| a l Ha Hl IH]; [reflexivity |].
  cbn [detect_motion_segments map length repeat]. f_equal.
  - apply Qgtb_le. exact Ha.
  - exact IH.
Qed.

Lemma np_lerp_flat (a b t c : Q) : a == c -> b == c -> np_lerp a b t == c.
Proof.
  intros Ha Hb. unfold np_lerp.
  destruct (Qle_bool (1 # 2) t); rewrite Ha, Hb; ring.
Qed.

Lemma np_percentile_shape (acc_mag : list Q) (m : nat) :
  length acc_mag = S m ->
  exists previous next gamma,
    (previous <= m)%nat /\ (next <= m)%nat /\
    np_percentile acc_mag HolterConfig.ACC_THRESHOLD_PERCENTILE
    = Some (np_lerp (nth previous (np_sort acc_mag) 0)
                    (nth next (np_sort acc_mag) 0) gamma).
Proof.
  intro Hlen. unfold np_percentile. rewrite Hlen.
  change (Qgtb 0 HolterConfig.ACC_THRESHOLD_PERCENTILE
          || Qgtb HolterConfig.ACC_THRESHOLD_PERCENTILE 100) with false.
  cbv iota.
  set (v := HolterConfig.ACC_THRESHOLD_PERCENTILE / 100 * inject_Z (Z.of_nat m)).
  exists (Z.to_nat (Qfloor v)), (Nat.min (S (Z.to_nat (Qfloor v))) m). eexists.
  split; [| split; [apply Nat.le_min_r | reflexivity]].
  assert (Hv : v <= inject_Z (Z.of_nat m)).
  { unfold v.
    assert (0 <= inject_Z (Z.of_nat m)) by (rewrite <- (Zle_Qle 0); lia).
    change (HolterConfig.ACC_THRESHOLD_PERCENTILE / 100) with (75 / 100).
    assert (75 / 100 == 3 # 4) by reflexivity. rewrite H0. lra. }
  apply Qfloor_resp_le in Hv. rewrite Qfloor_Z in Hv. lia.
Qed.

Lemma constant_window_threshold (acc_mag : list Q) (c threshold : Q) :
  acc_mag <> [] ->
  Forall (fun a => a == c) acc_mag ->
  np_percentile acc_mag HolterConfig.ACC_THRESHOLD_PERCENTILE = Some threshold ->
  threshold == c.
Proof.
  intros Hne Hall Hp.
  destruct acc_mag as [| x rest] eqn:Hacc; [congruence |]. rewrite <- Hacc in *.
  assert (Hlen : length acc_mag = S (length rest)) by (rewrite Hacc; reflexivity).
  destruct (np_percentile_shape acc_mag _ Hlen)
    as [previous [next [gamma [Hprev [Hnext Hshape]]]]].
  rewrite Hshape in Hp. injection Hp as Hp.
  assert (Hsorted : Forall (fun a => a == c) (np_sort acc_mag))
    by (eapply Permutation_Forall; [apply np_sort_perm | exact Hall]).
  rewrite Forall_forall in Hsorted.
  rewrite <- Hp. apply np_lerp_flat; apply Hsorted; apply nth_In;
    rewrite np_sort_length, Hlen; lia.
Qed.

Lemma repeat_false_count (n : nat) :
  count_occ bool_dec (repeat false n) true = 0%nat.
Proof.
  induction n as [| n IH]; [reflexivity | exact IH].
Qed.

(** X6: when [_process_window] runs with the threshold still unset on
    buffers whose acceleration magnitudes are all one value (a device at
    rest, or all zeros), it calibrates the threshold to that value, flags no
    sample, picks the low-motion multiplier for every band, and computes in
    all three channels what the low-motion filter computes: its lines are
    those of the low-motion window, and it raises exactly when that one
    does. *)
Theorem constant_window_flags_nothing
  (lib : PyLib) (self : WaveletProcessor) (c : Q) :
  acc_threshold self = None ->
  acc_mag_buffer self <> [] ->
  Forall (fun a => a == c) (acc_mag_buffer self) ->
  exists threshold,
    calibrate self (acc_mag_buffer self) = Some threshold /\
    threshold == c /\
    let motion_mask := detect_motion_segments (acc_mag_buffer self) threshold in
    motion_mask = repeat false (length (acc_mag_buffer self)) /\
    motion_multiplier motion_mask = HolterConfig.THRESHOLD_MULTIPLIER_LOW_MOTION /\
    (forall T0 ncoeffs i,
       band_threshold T0 motion_mask ncoeffs i
       = T0 * HolterConfig.THRESHOLD_MULTIPLIER_LOW_MOTION
         * level_factor ncoeffs i) /\
    (forall ecg_signal wavelet level,
       adaptive_wavelet_filter lib ecg_signal motion_mask wavelet level
       = low_motion_filter lib ecg_signal wavelet level) /\
    window_output lib self
    = (lines <- low_motion_window lib self ;; Some (threshold, lines)) /\
    _process_window lib self
    = (lines <- low_motion_window lib self ;;
       Some {| timestamp_buffer := timestamp_buffer self;
               ecg_I_buffer := ecg_I_buffer self;
               ecg_II_buffer := ecg_II_buffer self;
               ecg_III_buffer := ecg_III_buffer self;
               acc_mag_buffer := acc_mag_buffer self;
               acc_threshold := Some threshold;
               raw_csv := raw_csv self;
               filtered_csv := filtered_csv self ++ lines |}).
Proof.
  intros Hnone Hne Hall.
  destruct (np_percentile_nonempty (acc_mag_buffer self) Hne) as [threshold Hp].
  assert (Hcal : calibrate self (acc_mag_buffer self) = Some threshold)
    by (unfold calibrate; rewrite Hnone; exact Hp).
  pose proof (constant_window_threshold _ c threshold Hne Hall Hp) as Hthr.
  assert (Hmask : detect_motion_segments (acc_mag_buffer self) threshold
                  = repeat false (length (acc_mag_buffer self))).
  { apply nothing_above. eapply Forall_impl; [| exact Hall].
    intros a Ha. cbv beta in Ha. rewrite Ha, Hthr. apply Qle_refl. }
  assert (Hhm : high_motion
                  (detect_motion_segments (acc_mag_buffer self) threshold)
                = false).
  { apply no_flag_low_motion. rewrite Hmask. apply repeat_false_count. }
  pose proof (window_output_low lib self threshold Hcal Hhm) as Hout.
  exists threshold. cbv zeta.
  split; [exact Hcal |]. split; [exact Hthr |]. split; [exact Hmask |].
  split; [unfold motion_multiplier; rewrite Hhm; reflexivity |].
  split.
  { intros T0 ncoeffs i. unfold band_threshold. rewrite Hhm. reflexivity. }
  split; [intros; apply low_motion_filter_eq; exact Hhm |].
  split; [exact Hout |].
  unfold _process_window. rewrite Hout.
  destruct (low_motion_window lib self); reflexivity.
Qed.

Lemma constant_window_flags_nothing_witness :
  let self :=
    {| timestamp_buffer := [0; 1; 2; 3]; ecg_I_buffer := [4; 2; 6; 9];
       ecg_II_buffer := [1; 1; 2; 3]; ecg_III_buffer := [5; 8; 13; 21];
       acc_mag_buffer := [9; 9; 9; 9]; acc_threshold := None;
       raw_csv := []; filtered_csv := [] |} in
  high_motion (detect_motion_segments (acc_mag_buffer self) 0) = true /\
  exists threshold,
    calibrate self (acc_mag_buffer self) = Some threshold /\
    threshold == 9 /\
    window_output HaarLib.lib self
    = (lines <- low_motion_window HaarLib.lib self ;; Some (threshold, lines)).
Proof.
  intro self. split; [vm_compute; reflexivity |].
  destruct (constant_window_flags_nothing HaarLib.lib self 9)
    as [threshold [Hcal [Hthr [_ [_ [_ [_ [Hout _]]]]]]]].
  - reflexivity.
  - discriminate.
  - repeat constructor.
  - exists threshold. split; [exact Hcal |]. split; [exact Hthr | exact Hout].
Defined.

Lemma Qsquare_opp (x : Q) : (- x) ^ 2 = x ^ 2.
Proof.
  destruct x as [n d]. unfold Qpower, Qpower_positive, pow_pos, Qopp, Qmult.
  cbn [Qnum Qden]. rewrite Z.mul_opp_opp. reflexivity.
Qed.

(** X7: the acceleration magnitude does not depend on the sign of any
    component (the orientation of an axis), and the number under the square
    root is never negative. *)
Theorem acceleration_magnitude_signs (lib : PyLib) (acc_x acc_y acc_z : Q) :
  calculate_acceleration_magnitude lib (- acc_x) acc_y acc_z
  = calculate_acceleration_magnitude lib acc_x acc_y acc_z /\
  calculate_acceleration_magnitude lib acc_x (- acc_y) acc_z
  = calculate_acceleration_magnitude lib acc_x acc_y acc_z /\
  calculate_acceleration_magnitude lib acc_x acc_y (- acc_z)
  = calculate_acceleration_magnitude lib acc_x acc_y acc_z /\
  0 <= acc_x ^ 2 + acc_y ^ 2 + acc_z ^ 2.
Proof.
  unfold calculate_acceleration_magnitude. rewrite !Qsquare_opp.
  repeat split.
  assert (Hsq : forall x : Q, 0 <= x ^ 2).
  { intro x. change (x ^ 2) with (x * x).
    destruct (Qlt_le_dec x 0) as [Hneg | Hpos].
    - assert (x * x == (- x) * (- x)) by ring. rewrite H.
      apply Qmult_le_0_compat; lra.
    - apply Qmult_le_0_compat; assumption. }
  pose proof (Hsq acc_x). pose proof (Hsq acc_y). pose proof (Hsq acc_z). lra.
Qed.

(** ** A session of the processor *)

Lemma window_output_inv (lib : PyLib) (self : WaveletProcessor) (n : nat)
  (threshold : Q) (lines : list FilteredLine) :
  buffers_synced self n ->
  window_output lib self = Some (threshold, lines) ->
  exists f1 f2 f3,
    length f1 = n /\ length f2 = n /\ length f3 = n /\
    lines = zip4 (firstn (n - HolterConfig.OVERLAP) (timestamp_buffer self))
                 (firstn (n - HolterConfig.OVERLAP) f1)
                 (firstn (n - HolterConfig.OVERLAP) f2)
                 (firstn (n - HolterConfig.OVERLAP) f3).
Proof.
  intros [Ht [H1 [H2 [H3 _]]]] H. unfold window_output in H.
  apply bind_some in H. destruct H as [t [_ H]].
  apply bind_some in H. destruct H as [f1 [E1 H]].
  apply bind_some in H. destruct H as [f2 [E2 H]].
  apply bind_some in H. destruct H as [f3 [E3 H]].
  apply bind_some in H. destruct H as [ls [Hls H]].
  injection H as _ H. subst ls.
  apply adaptive_wavelet_filter_some_length in E1, E2, E3.
  exists f1, f2, f3. rewrite E1, E2, E3, H1, H2, H3.
  repeat (split; [reflexivity |]).
  rewrite Ht in Hls. rewrite new_lines_zip in Hls by lia.
  injection Hls as Hls. symmetry. exact Hls.
Qed.

(** What one successful call does to a processor whose buffers agree and
    are not full. *)
Lemma process_sample_effect (lib : PyLib) (self self' : WaveletProcessor)
  (data : list Q) (n : nat) :
  buffers_synced self n -> (n < HolterConfig.WINDOW_SIZE)%nat ->
  process_sample lib self data = Some self' ->
  length data = 8%nat /\
  raw_csv self' = raw_csv self ++ [data] /\
  ((S n < HolterConfig.WINDOW_SIZE)%nat /\
   buffers_synced self' (S n) /\
   filtered_csv self' = filtered_csv self /\
   timestamp_buffer self' = timestamp_buffer self ++ [item_timestamp data]
   \/
   S n = HolterConfig.WINDOW_SIZE /\
   buffers_synced self' HolterConfig.OVERLAP /\
   exists lines,
     length lines = (HolterConfig.WINDOW_SIZE - HolterConfig.OVERLAP)%nat /\
     filtered_csv self' = filtered_csv self ++ lines /\
     map line_timestamp lines ++ timestamp_buffer self'
     = timestamp_buffer self ++ [item_timestamp data]).
Proof.
  intros Hs Hn H.
  pose proof (process_sample_synced lib self self' data n Hs H) as Hs'.
  apply process_sample_inv in H.
  destruct H as [t [e1 [e2 [e3 [ax [ay [az [am [Hdata H]]]]]]]]].
  cbv zeta in H. subst data.
  set (data := [t; e1; e2; e3; ax; ay; az; am]) in *.
  set (window := append_sample (_save_raw_sample self data) t e1 e2 e3 am) in *.
  assert (Hw : buffers_synced window (S n))
    by (apply append_sample_synced; exact Hs).
  assert (Hfull : is_full window = (HolterConfig.WINDOW_SIZE <=? S n)%nat).
  { unfold is_full. destruct Hw as [_ [H2 _]]. rewrite H2. reflexivity. }
  split; [reflexivity |].
  destruct H as [[Hf [mid [Hmid Hself]]] | [Hf Hself]];
    rewrite Hfull in Hf; rewrite Hf in Hs'; subst self'.
  - apply Nat.leb_le in Hf.
    assert (HSn : S n = HolterConfig.WINDOW_SIZE) by lia.
    apply process_window_inv in Hmid.
    destruct Hmid as [threshold [lines [Hout Hmid]]]. subst mid.
    split; [reflexivity |]. right. split; [exact HSn |].
    split.
    { rewrite HSn in Hs'. exact Hs'. }
    destruct (window_output_inv lib window (S n) threshold lines Hw Hout)
      as [f1 [f2 [f3 [L1 [L2 [L3 Hlines]]]]]].
    destruct Hw as [Hwt _].
    exists lines. split; [| split; [reflexivity |]].
    + rewrite Hlines. rewrite HSn in *.
      apply zip4_length; rewrite length_firstn;
        unfold HolterConfig.WINDOW_SIZE, HolterConfig.OVERLAP in *; lia.
    + assert (Hts : map line_timestamp lines
                    = firstn (S n - HolterConfig.OVERLAP) (timestamp_buffer window)).
      { rewrite Hlines. apply zip4_timestamps; rewrite !length_firstn; lia. }
      rewrite Hts. unfold slide. cbn [timestamp_buffer].
      unfold py_tail_slice, HolterConfig.OVERLAP at 2. rewrite Hwt.
      change (S n - 250)%nat with (S n - HolterConfig.OVERLAP)%nat.
      rewrite firstn_skipn. reflexivity.
  - apply Nat.leb_gt in Hf. split; [reflexivity |]. left.
    split; [exact Hf |]. split; [exact Hs' |]. split; reflexivity.
Qed.

Lemma session_invariant_init : session_invariant WaveletProcessor_init.
Proof.
  exists 0%nat, 0%nat. unfold HolterConfig.WINDOW_SIZE.
  repeat split; try reflexivity; lia.
Qed.

Lemma session_invariant_step (lib : PyLib) (self self' : WaveletProcessor)
  (data : list Q) :
  session_invariant self -> process_sample lib self data = Some self' ->
  session_invariant self'.
Proof.
  intros [n [windows [Hs [Hn [Hf [Hov Hts]]]]]] H.
  destruct (process_sample_effect lib self self' data n Hs Hn H)
    as [_ [Hraw [[HSn [Hs' [Hcsv Hbuf]]] | [HSn [Hs' [lines [Hl [Hcsv Hbuf]]]]]]]].
  - exists (S n), windows. rewrite Hcsv, Hraw, Hbuf.
    split; [exact Hs' |]. split; [exact HSn |]. split; [exact Hf |].
    split; [intro Hw; specialize (Hov Hw); lia |].
    rewrite map_app, app_assoc, Hts. reflexivity.
  - exists HolterConfig.OVERLAP, (S windows). rewrite Hcsv, Hraw.
    split; [exact Hs' |].
    split; [unfold HolterConfig.OVERLAP, HolterConfig.WINDOW_SIZE; lia |].
    split; [rewrite length_app, Hf, Hl; lia |].
    split; [intros _; apply Nat.le_refl |].
    rewrite !map_app, <- app_assoc, Hbuf, app_assoc, Hts. reflexivity.
Qed.

Lemma process_all_invariant (lib : PyLib) (items : list (list Q)) :
  forall self final,
    session_invariant self -> process_all lib self items = Some final ->
    session_invariant final /\ raw_csv final = raw_csv self ++ items.
Proof.
  induction items as [| data rest IH]; intros self final Hinv H.
  - injection H as H. subst final. rewrite app_nil_r. auto.
  - cbn [process_all] in H. apply bind_some in H.
    destruct H as [next [Hnext H]].
    pose proof (session_invariant_step lib self next data Hinv Hnext) as Hinv'.
    destruct (IH next final Hinv' H) as [Hfinal Hraw].
    split; [exact Hfinal |].
    destruct Hinv as [n [windows [Hs [Hn _]]]].
    destruct (process_sample_effect lib self next data n Hs Hn Hnext)
      as [_ [Hr _]].
    rewrite Hraw, Hr, <- app_assoc. reflexivity.
Qed.

Lemma process_sample_raw (lib : PyLib) (self self' : WaveletProcessor)
  (data : list Q) :
  process_sample lib self data = Some self' ->
  length data = 8%nat /\ raw_csv self' = raw_csv self ++ [data].
Proof.
  intro H. apply process_sample_inv in H.
  destruct H as [t [e1 [e2 [e3 [ax [ay [az [am [Hdata H]]]]]]]]].
  cbv zeta in H. subst data. split; [reflexivity |].
  destruct H as [[_ [mid [Hmid Hself]]] | [_ Hself]]; subst self'.
  - apply process_window_inv in Hmid.
    destruct Hmid as [threshold [lines [_ Hmid]]]. subst mid. reflexivity.
  - reflexivity.
Qed.

Lemma process_sample_returns (lib : PyLib) (self : WaveletProcessor)
  (data : list Q) :
  filter_returns lib -> reachable lib self -> length data = 8%nat ->
  exists self', process_sample lib self data = Some self'.
Proof.
  intros Hlib Hreach Hlen.
  do 8 (destruct data as [| ? data]; [discriminate Hlen |]).
  destruct data; [| discriminate Hlen].
  match goal with
  | |- exists _, process_sample _ _ [?t; ?e1; ?e2; ?e3; ?ax; ?ay; ?az; ?am] = _ =>
      set (window := append_sample
                       (_save_raw_sample self [t; e1; e2; e3; ax; ay; az; am])
                       t e1 e2 e3 am);
      change (exists self',
                (if is_full window
                 then self0 <- _process_window lib window ;; Some (slide self0)
                 else Some window) = Some self');
      destruct (is_full window) eqn:Hfull;
      [ destruct (full_window_step lib self t e1 e2 e3 ax ay az am
                    Hlib Hreach Hfull)
          as [_ [threshold [f1 [f2 [f3 [mid H]]]]]];
        cbv zeta in H;
        destruct H as [_ [_ [_ [_ [_ [_ [_ [Hmid _]]]]]]]];
        exists (slide mid); fold window in Hmid; rewrite Hmid; reflexivity
      | exists window; reflexivity ]
  end.
Qed.

(** X8: every sample handed to [process_sample] is saved raw, once and in
    the order of the calls, whatever the state the processor started from;
    a run that succeeds has seen items of 8 fields only. *)
Theorem raw_file_records_every_sample
  (lib : PyLib) (items : list (list Q)) (self final : WaveletProcessor) :
  process_all lib self items = Some final ->
  raw_csv final = raw_csv self ++ items /\
  Forall (fun data => length data = 8%nat) items.
Proof.
  revert self. induction items as [| data rest IH]; intros self H.
  - injection H as H. subst final. rewrite app_nil_r. split; constructor.
  - cbn [process_all] in H. apply bind_some in H.
    destruct H as [next [Hnext H]].
    destruct (process_sample_raw lib self next data Hnext) as [Hlen Hraw].
    destruct (IH next H) as [Hfinal Hall].
    split; [rewrite Hfinal, Hraw, <- app_assoc; reflexivity |].
    constructor; assumption.
Qed.

Lemma raw_file_records_every_sample_witness :
  exists final,
    process_all HaarLib.lib WaveletProcessor_init (samples_from 0 3) = Some final /\
    raw_csv final = samples_from 0 3.
Proof.
  destruct (process_all HaarLib.lib WaveletProcessor_init (samples_from 0 3))
    as [final |] eqn:E; [| vm_compute in E; discriminate E].
  exists final. split; [reflexivity |].
  exact (proj1 (raw_file_records_every_sample HaarLib.lib _ _ _ E)).
Defined.

(** X9: a session that starts with a fresh processor and has processed [k]
    samples has saved [k] raw rows, has written one block of
    [WINDOW_SIZE - OVERLAP] filtered lines for each of its
    [(k - OVERLAP) / (WINDOW_SIZE - OVERLAP)] windows, and holds the rest,
    fewer than [WINDOW_SIZE] entries, in each buffer. *)
Theorem session_sizes
  (lib : PyLib) (items : list (list Q)) (final : WaveletProcessor) :
  process_all lib WaveletProcessor_init items = Some final ->
  let k := length items in
  let step := (HolterConfig.WINDOW_SIZE - HolterConfig.OVERLAP)%nat in
  let windows := ((k - HolterConfig.OVERLAP) / step)%nat in
  length (raw_csv final) = k /\
  length (filtered_csv final) = (windows * step)%nat /\
  buffers_synced final (k - windows * step) /\
  (k - windows * step < HolterConfig.WINDOW_SIZE)%nat.
Proof.
  intro H. cbv zeta.
  destruct (process_all_invariant lib items _ _ session_invariant_init H)
    as [[n [m [Hs [Hn [Hf [Hov Hts]]]]]] Hraw].
  cbn [raw_csv WaveletProcessor_init app] in Hraw.
  assert (Hk : (length (filtered_csv final) + n = length items)%nat).
  { apply (f_equal (@length Q)) in Hts.
    rewrite length_app, !length_map, Hraw in Hts.
    destruct Hs as [Ht _]. rewrite Ht in Hts. exact Hts. }
  unfold HolterConfig.WINDOW_SIZE, HolterConfig.OVERLAP in *.
  change (500 - 250)%nat with 250%nat in *.
  assert (Hm : ((length items - 250) / 250 = m)%nat).
  { destruct m as [| m'].
    - apply Nat.div_small. lia.
    - specialize (Hov ltac:(lia)). symmetry.
      apply (Nat.div_unique _ 250 _ (n - 250)); lia. }
  rewrite Hm, Hraw.
  split; [reflexivity |]. split; [exact Hf |].
  replace (length items - m * 250)%nat with n by lia.
  split; [exact Hs | exact Hn].
Qed.

Lemma session_sizes_witness :
  exists final,
    process_all HaarLib.lib WaveletProcessor_init (samples_from 0 760) = Some final /\
    length (filtered_csv final) = 500%nat /\
    buffers_synced final 260.
Proof.
  destruct (process_all HaarLib.lib WaveletProcessor_init (samples_from 0 760))
    as [final |] eqn:E; [| vm_compute in E; discriminate E].
  exists final. split; [reflexivity |].
  destruct (session_sizes HaarLib.lib _ _ E) as [_ [Hf [Hs _]]].
  split; [exact Hf | exact Hs].
Defined.

(** X10: no sample is written twice, skipped or reordered on its way to the
    filtered file: at any point of a session the timestamps of the filtered
    lines, followed by the timestamps still in the buffer, are the timestamps
    of the samples processed so far, in their order of arrival. *)
Theorem filtered_file_follows_arrival
  (lib : PyLib) (items : list (list Q)) (final : WaveletProcessor) :
  process_all lib WaveletProcessor_init items = Some final ->
  map line_timestamp (filtered_csv final) ++ timestamp_buffer final
  = map item_timestamp items.
Proof.
  intro H.
  destruct (process_all_invariant lib items _ _ session_invariant_init H)
    as [[n [m [_ [_ [_ [_ Hts]]]]]] Hraw].
  rewrite Hts, Hraw. reflexivity.
Qed.

Lemma filtered_file_follows_arrival_witness :
  exists final,
    process_all HaarLib.lib WaveletProcessor_init (samples_from 0 760) = Some final /\
    map line_timestamp (filtered_csv final) ++ timestamp_buffer final
    = map item_timestamp (samples_from 0 760).
Proof.
  destruct (process_all HaarLib.lib WaveletProcessor_init (samples_from 0 760))
    as [final |] eqn:E; [| vm_compute in E; discriminate E].
  exists final. split; [reflexivity |].
  exact (filtered_file_follows_arrival HaarLib.lib _ _ E).
Defined.

(** X11: with a transform library that lets the filter return, a session
    runs to the end of its items exactly when every item has 8 fields: the
    only exception the processor can raise is the failed unpacking of an
    item of another length. *)
Theorem session_succeeds_iff (lib : PyLib) (items : list (list Q)) :
  filter_returns lib ->
  (process_all lib WaveletProcessor_init items <> None <->
   Forall (fun data => length data = 8%nat) items).
Proof.
  intro Hlib. split.
  - intro H.
    destruct (process_all lib WaveletProcessor_init items) as [final |] eqn:E;
      [| congruence].
    revert E. generalize WaveletProcessor_init. clear H.
    induction items as [| data rest IH]; intros self E; [constructor |].
    cbn [process_all] in E. apply bind_some in E.
    destruct E as [next [Hnext E]].
    constructor; [exact (proj1 (process_sample_raw lib _ _ _ Hnext)) |].
    exact (IH next E).
  - intro Hall.
    assert (Hgen : forall self, reachable lib self ->
              process_all lib self items <> None).
    { induction Hall as [| data rest Hlen Hrest IH]; intros self Hreach.
      - discriminate.
      - cbn [process_all].
        destruct (process_sample_returns lib self data Hlib Hreach Hlen)
          as [next Hnext].
        rewrite Hnext. cbn [bind]. apply IH.
        eapply reachable_step; eassumption. }
    apply Hgen. apply reachable_init.
Qed.

Lemma session_succeeds_iff_witness :
  process_all HaarLib.lib WaveletProcessor_init (samples_from 0 600) <> None /\
  process_all HaarLib.lib WaveletProcessor_init [[1; 2; 3]] = None.
Proof.
  destruct (session_succeeds_iff HaarLib.lib (samples_from 0 600)
              haar_filter_returns) as [_ Hok].
  destruct (session_succeeds_iff HaarLib.lib [[1; 2; 3]] haar_filter_returns)
    as [Hko _].
  split.
  - apply Hok. unfold samples_from. apply Forall_forall. intros data Hin.
    apply in_map_iff in Hin. destruct Hin as [t [Ht _]]. subst data.
    reflexivity.
  - destruct (process_all HaarLib.lib WaveletProcessor_init [[1; 2; 3]])
      as [final |] eqn:E; [| reflexivity].
    exfalso. assert (Hall : Forall (fun data : list Q => length data = 8%nat)
                              [[1; 2; 3]]) by (apply Hko; discriminate).
    inversion Hall as [| ? ? Hlen _]. discriminate Hlen.
Defined.

(** ** The system: receiver, queue and processing loop *)

Lemma receive_message_queue (py_float : string -> option Q)
  (self : UDPReceiver) (decoded : string) :
  data_queue (receive_message py_float self decoded)
  = data_queue self ++ sample_of py_float decoded.
Proof.
  unfold receive_message, sample_of.
  destruct (orb (startswith (strip decoded) "ERROR")
                (startswith (strip decoded) "SYSTEM")).
  - cbn [data_queue]. rewrite app_nil_r. reflexivity.
  - destruct (parse_values py_float (strip decoded)) as [values |].
    + destruct (length values =? 8)%nat.
      * reflexivity.
      * rewrite app_nil_r. reflexivity.
    + cbn [data_queue]. rewrite app_nil_r. reflexivity.
Qed.

Lemma sample_of_fields (py_float : string -> option Q) (decoded : string) :
  Forall (fun data => length data = 8%nat) (sample_of py_float decoded).
Proof.
  unfold sample_of.
  destruct (orb (startswith (strip decoded) "ERROR")
                (startswith (strip decoded) "SYSTEM")); [constructor |].
  destruct (parse_values py_float (strip decoded)) as [values |];
    [| constructor].
  destruct (length values =? 8)%nat eqn:E; [| constructor].
  apply Nat.eqb_eq in E. constructor; [exact E | constructor].
Qed.

Lemma system_step_accounts (lib : PyLib) (py_float : string -> option Q)
  (self self' : HolterSystem) (e : Event) :
  system_step lib py_float self e = Some self' ->
  raw_csv (processor self') ++ data_queue (receiver self')
  = raw_csv (processor self) ++ data_queue (receiver self)
    ++ samples_of py_float [e] /\
  (sample_count self' + length (raw_csv (processor self))
   = sample_count self + length (raw_csv (processor self')))%nat.
Proof.
  destruct e as [decoded |]; cbn [system_step samples_of flat_map].
  - intro H. injection H as H. subst self'.
    cbn [receiving_turn receiver processor sample_count].
    rewrite receive_message_queue, app_nil_r. split; reflexivity.
  - unfold processing_turn. rewrite app_nil_r.
    destruct (data_queue (receiver self)) as [| data rest] eqn:Hq.
    + intro H. injection H as H. subst self'. rewrite Hq. split; reflexivity.
    + intro H. apply bind_some in H. destruct H as [p [Hp H]].
      injection H as H. subst self'. cbn [receiver processor sample_count data_queue].
      destruct (process_sample_raw lib _ _ _ Hp) as [_ Hraw].
      rewrite Hraw, <- app_assoc, length_app. cbn [app length]. split; [reflexivity | lia].
Qed.

(** X12: however the turns of the receiver and of the processing loop
    interleave, no accepted sample is lost, duplicated or reordered between
    the socket and the raw file: the raw rows followed by the items still
    queued are the samples of the datagrams received so far, in order of
    arrival; [sample_count] is the number of raw rows. *)
Theorem system_loses_no_sample
  (lib : PyLib) (py_float : string -> option Q)
  (events : list Event) (final : HolterSystem) :
  system_run lib py_float HolterSystem_init events = Some final ->
  raw_csv (processor final) ++ data_queue (receiver final)
  = samples_of py_float events /\
  sample_count final = length (raw_csv (processor final)).
Proof.
  assert (Hgen : forall self,
            system_run lib py_float self events = Some final ->
            raw_csv (processor final) ++ data_queue (receiver final)
            = raw_csv (processor self) ++ data_queue (receiver self)
              ++ samples_of py_float events /\
            (sample_count final + length (raw_csv (processor self))
             = sample_count self + length (raw_csv (processor final)))%nat).
  { induction events as [| e rest IH]; intros self H.
    - injection H as H. subst final. cbn [samples_of flat_map].
      rewrite app_nil_r. split; reflexivity.
    - cbn [system_run] in H. apply bind_some in H.
      destruct H as [next [Hnext H]].
      destruct (system_step_accounts lib py_float self next e Hnext)
        as [Hq Hc].
      destruct (IH next H) as [Hq' Hc'].
      split; [| lia].
      rewrite Hq', app_assoc, Hq.
      cbn [samples_of flat_map]. rewrite app_nil_r, <- !app_assoc.
      reflexivity. }
  intro H. destruct (Hgen _ H) as [Hq Hc].
  cbn [HolterSystem_init processor receiver raw_csv data_queue sample_count
       WaveletProcessor_init app length] in Hq, Hc.
  split; [exact Hq | lia].
Qed.

Lemma system_loses_no_sample_witness :
  let events :=
    [Datagram "1,2,3,4,5,6,7,8"; Datagram "SYSTEM ready"; ProcessingTurn;
     Datagram "9,8,7,6,5,4,3,2"; Datagram "1,2,3"] in
  exists final,
    system_run HaarLib.lib HaarLib.float HolterSystem_init events = Some final /\
    raw_csv (processor final) ++ data_queue (receiver final)
    = samples_of HaarLib.float events /\
    sample_count final = 1%nat.
Proof.
  intro events.
  destruct (system_run HaarLib.lib HaarLib.float HolterSystem_init events)
    as [final |] eqn:E; [| vm_compute in E; discriminate E].
  exists final. split; [reflexivity |].
  destruct (system_loses_no_sample HaarLib.lib HaarLib.float events final E)
    as [Hq Hc].
  split; [exact Hq |]. rewrite Hc.
  vm_compute in E. injection E as E. subst final. reflexivity.
Defined.

(** X13: with a transform library that lets the filter return, the system
    never stops on an exception, whatever datagrams arrive (control text,
    garbage, short or long lines) and however the two threads interleave:
    only lists of 8 values enter the queue, and those the processor
    accepts. *)
Theorem system_never_raises
  (lib : PyLib) (py_float : string -> option Q) (events : list Event) :
  filter_returns lib ->
  exists final,
    system_run lib py_float HolterSystem_init events = Some final /\
    Forall (fun data => length data = 8%nat) (data_queue (receiver final)) /\
    reachable lib (processor final).
Proof.
  intro Hlib.
  assert (Hgen : forall self,
            Forall (fun data => length data = 8%nat) (data_queue (receiver self)) ->
            reachable lib (processor self) ->
            exists final,
              system_run lib py_float self events = Some final /\
              Forall (fun data => length data = 8%nat)
                     (data_queue (receiver final)) /\
              reachable lib (processor final)).
  { induction events as [| e rest IH]; intros self Hq Hr.
    - exists self. repeat split; assumption.
    - cbn [system_run]. destruct e as [decoded |]; cbn [system_step bind].
      + apply IH; cbn [receiving_turn receiver processor]; [| exact Hr].
        rewrite receive_message_queue. apply Forall_app.
        split; [exact Hq | apply sample_of_fields].
      + unfold processing_turn.
        destruct (data_queue (receiver self)) as [| data queue] eqn:Hqueue.
        * cbn [bind]. apply IH; [rewrite Hqueue; constructor | exact Hr].
        * apply Forall_cons_iff in Hq. destruct Hq as [Hlen Hq].
          destruct (process_sample_returns lib _ data Hlib Hr Hlen)
            as [p Hp].
          rewrite Hp. cbn [bind]. apply IH; cbn [receiver processor data_queue].
          -- exact Hq.
          -- eapply reachable_step; eassumption. }
  apply Hgen; [constructor | apply reachable_init].
Qed.

Lemma system_never_raises_witness :
  exists final,
    system_run HaarLib.lib HaarLib.float HolterSystem_init
      [Datagram "ERROR,disconnect"; Datagram "1,2,3"; Datagram "x,y";
       Datagram "1,2,3,4,5,6,7,8"; ProcessingTurn; ProcessingTurn]
    = Some final /\
    Forall (fun data => length data = 8%nat) (data_queue (receiver final)) /\
    reachable HaarLib.lib (processor final).
Proof.
  apply (system_never_raises HaarLib.lib HaarLib.float).
  exact haar_filter_returns.
Defined.

(** X14: the processing loop is [process_sample] applied to the queued
    items from the oldest to the newest: as many turns as there are items
    empty the queue, count each item, and leave the processor where the
    items one after the other lead; a turn on an empty queue changes
    nothing. *)
Theorem processing_loop_drains_queue
  (lib : PyLib) (py_float : string -> option Q) (self : HolterSystem) :
  system_run lib py_float self
    (repeat ProcessingTurn (length (data_queue (receiver self))))
  = option_map
      (fun processor' =>
         {| receiver := {| data_queue := [];
                           console := console (receiver self) |};
            processor := processor';
            sample_count :=
              (sample_count self + length (data_queue (receiver self)))%nat |})
      (process_all lib (processor self) (data_queue (receiver self))) /\
  (data_queue (receiver self) = [] ->
   system_step lib py_float self ProcessingTurn = Some self).
Proof.
  split.
  - destruct self as [[queue printed] p count].
    cbn [receiver processor sample_count data_queue console].
    revert p count. induction queue as [| data rest IH]; intros p count.
    + cbn. rewrite Nat.add_0_r. reflexivity.
    + cbn [length repeat system_run system_step process_all].
      unfold processing_turn at 1.
      cbn [receiver processor sample_count data_queue console].
      destruct (process_sample lib p data) as [p' |]; [| reflexivity].
      cbn [bind]. rewrite IH. rewrite Nat.add_succ_r. reflexivity.
  - intro Hq. cbn [system_step]. unfold processing_turn. rewrite Hq.
    reflexivity.
Qed.

Lemma processing_loop_drains_queue_witness :
  system_step HaarLib.lib HaarLib.float HolterSystem_init ProcessingTurn
  = Some HolterSystem_init.
Proof.
  apply (proj2 (processing_loop_drains_queue HaarLib.lib HaarLib.float
                  HolterSystem_init)).
  reflexivity.
Defined.

(** ** What the filtered file lags behind *)

(** X15: the filtered file always lags behind the raw file: the most recent
    [OVERLAP] samples (all of them while there are fewer) are never in it,
    and fewer than [WINDOW_SIZE] samples are missing from it; what it holds
    are the samples that arrived first. *)
Theorem filtered_file_lag
  (lib : PyLib) (items : list (list Q)) (final : WaveletProcessor) :
  process_all lib WaveletProcessor_init items = Some final ->
  let written := length (filtered_csv final) in
  let k := length items in
  (written + Nat.min k HolterConfig.OVERLAP <= k)%nat /\
  (k < written + HolterConfig.WINDOW_SIZE)%nat /\
  map line_timestamp (filtered_csv final)
  = firstn written (map item_timestamp items).
Proof.
  intro H. cbv zeta.
  destruct (process_all_invariant lib items _ _ session_invariant_init H)
    as [[n [m [Hs [Hn [Hf [Hov Hts]]]]]] Hraw].
  cbn [raw_csv WaveletProcessor_init app] in Hraw. rewrite Hraw in Hts.
  assert (Hk : (length (filtered_csv final) + n = length items)%nat).
  { apply (f_equal (@length Q)) in Hts.
    rewrite length_app, !length_map in Hts.
    destruct Hs as [Ht _]. rewrite Ht in Hts. exact Hts. }
  split; [| split].
  - destruct m as [| m'].
    + rewrite Hf. cbn [Nat.mul Nat.add]. apply Nat.le_min_l.
    + specialize (Hov ltac:(lia)).
      pose proof (Nat.le_min_r (length items) HolterConfig.OVERLAP). lia.
  - lia.
  - rewrite <- Hts. rewrite firstn_app, length_map, Nat.sub_diag.
    cbn [firstn]. rewrite app_nil_r.
    rewrite <- (length_map line_timestamp). rewrite firstn_all. reflexivity.
Qed.

Lemma filtered_file_lag_witness :
  exists final,
    process_all HaarLib.lib WaveletProcessor_init (samples_from 0 760) = Some final /\
    (length (filtered_csv final) + Nat.min 760 HolterConfig.OVERLAP <= 760)%nat.
Proof.
  destruct (process_all HaarLib.lib WaveletProcessor_init (samples_from 0 760))
    as [final |] eqn:E; [| vm_compute in E; discriminate E].
  exists final. split; [reflexivity |].
  destruct (filtered_file_lag HaarLib.lib _ _ E) as [Hlag _].
  cbv zeta in Hlag. unfold samples_from in Hlag.
  rewrite length_map, length_seq in Hlag. exact Hlag.
Defined.

(** ** The threshold of a session *)

Lemma process_all_app (lib : PyLib) (items1 items2 : list (list Q)) :
  forall self,
    process_all lib self (items1 ++ items2)
    = (mid <- process_all lib self items1 ;; process_all lib mid items2).
Proof.
  induction items1 as [| data rest IH]; intro self; [reflexivity |].
  cbn [app process_all].
  destruct (process_sample lib self data) as [next |]; [| reflexivity].
  cbn [bind]. apply IH.
Qed.

(** Before the first window: nothing is calibrated and the magnitude buffer
    is what has arrived. *)
Lemma filling_phase (lib : PyLib) (items : list (list Q)) :
  forall self final n,
    buffers_synced self n ->
    (n + length items < HolterConfig.WINDOW_SIZE)%nat ->
    process_all lib self items = Some final ->
    buffers_synced final (n + length items) /\
    acc_threshold final = acc_threshold self /\
    acc_mag_buffer final = acc_mag_buffer self ++ map item_acc_mag items.
Proof.
  induction items as [| data rest IH]; intros self final n Hs Hn H.
  - injection H as H. subst final. rewrite Nat.add_0_r, app_nil_r. auto.
  - cbn [process_all] in H. apply bind_some in H.
    destruct H as [next [Hnext H]]. cbn [length] in Hn.
    pose proof (process_sample_synced lib self next data n Hs Hnext) as Hs'.
    assert (Hnot : (HolterConfig.WINDOW_SIZE <=? S n)%nat = false)
      by (apply Nat.leb_gt; lia).
    rewrite Hnot in Hs'.
    destruct (process_sample_threshold lib self next data Hnext) as [Hidle _].
    cbv zeta in Hidle. destruct Hs as [_ [H2 _]]. rewrite H2 in Hidle.
    specialize (Hidle Hnot).
    apply process_sample_inv in Hnext.
    destruct Hnext as [t [e1 [e2 [e3 [ax [ay [az [am [Hdata Hnext]]]]]]]]].
    cbv zeta in Hnext.
    assert (Hfull : is_full (append_sample (_save_raw_sample self data)
                               t e1 e2 e3 am) = false).
    { unfold is_full, append_sample, _save_raw_sample. cbn [ecg_I_buffer].
      rewrite length_app, H2. cbn [length]. rewrite Nat.add_1_r. exact Hnot. }
    destruct Hnext as [[Hf _] | [_ Hself]]; [congruence |].
    destruct (IH next final (S n) Hs' ltac:(lia) H) as [Hfs [Hft Hfa]].
    split; [replace (n + length (data :: rest))%nat
              with (S n + length rest)%nat by (cbn [length]; lia); exact Hfs |].
    split; [congruence |].
    rewrite Hfa, Hself, Hdata. cbn [acc_mag_buffer append_sample map].
    rewrite <- app_assoc. reflexivity.
Qed.

(** X16: the threshold of a session is unset until [WINDOW_SIZE] samples
    have been processed, and from then on it is the 75th percentile of the
    acceleration magnitudes of the first [WINDOW_SIZE] samples, whatever
    comes later. *)
Theorem session_threshold
  (lib : PyLib) (items : list (list Q)) (final : WaveletProcessor) :
  process_all lib WaveletProcessor_init items = Some final ->
  ((length items < HolterConfig.WINDOW_SIZE)%nat -> acc_threshold final = None) /\
  ((HolterConfig.WINDOW_SIZE <= length items)%nat ->
   acc_threshold final
   = np_percentile
       (map item_acc_mag (firstn HolterConfig.WINDOW_SIZE items))
       HolterConfig.ACC_THRESHOLD_PERCENTILE /\
   acc_threshold final <> None).
Proof.
  intro H.
  assert (Hinit : buffers_synced WaveletProcessor_init 0) by (repeat split).
  split.
  - intro Hk.
    destruct (filling_phase lib items _ _ 0%nat Hinit Hk H) as [_ [Ht _]].
    exact Ht.
  - intro Hk.
    rewrite <- (firstn_skipn 499 items) in H.
    rewrite process_all_app in H. apply bind_some in H.
    destruct H as [filled [Hfill H]].
    assert (Hlen : length (firstn 499 items) = 499%nat)
      by (rewrite length_firstn; unfold HolterConfig.WINDOW_SIZE in Hk; lia).
    destruct (filling_phase lib _ _ _ 0%nat Hinit
                ltac:(rewrite Hlen; unfold HolterConfig.WINDOW_SIZE; lia) Hfill)
      as [Hfs [Hft Hfa]].
    cbn [acc_threshold acc_mag_buffer WaveletProcessor_init app] in Hft, Hfa.
    destruct (skipn 499 items) as [| data rest] eqn:Hskip.
    { apply (f_equal (@length (list Q))) in Hskip.
      rewrite length_skipn in Hskip. cbn [length] in Hskip.
      unfold HolterConfig.WINDOW_SIZE in Hk. lia. }
    cbn [process_all] in H. apply bind_some in H.
    destruct H as [calibrated [Hcal H]].
    destruct (process_sample_threshold lib filled calibrated data Hcal)
      as [_ Hwin].
    cbv zeta in Hwin. destruct Hfs as [_ [H2 _]].
    rewrite H2, Hlen in Hwin.
    destruct (Hwin eq_refl) as [t [Ht Hpc]].
    unfold calibrate in Hpc. rewrite Hft, Hfa in Hpc.
    assert (Hwindow : map item_acc_mag (firstn HolterConfig.WINDOW_SIZE items)
                      = map item_acc_mag (firstn 499 items) ++ [nth 7 data 0]).
    { rewrite <- (firstn_skipn 499 items) at 1. rewrite Hskip.
      rewrite firstn_app, Hlen. unfold HolterConfig.WINDOW_SIZE.
      rewrite firstn_firstn. change (Nat.min 500 499) with 499%nat.
      change (500 - 499)%nat with 1%nat. cbn [firstn].
      rewrite map_app. reflexivity. }
    rewrite Hwindow, Hpc.
    rewrite (process_all_keeps_threshold lib rest calibrated final t Ht H).
    split; [reflexivity | discriminate].
Qed.

Lemma session_threshold_witness :
  exists final,
    process_all HaarLib.lib WaveletProcessor_init (samples_from 0 600) = Some final /\
    acc_threshold final
    = np_percentile (map item_acc_mag (firstn 500 (samples_from 0 600)))
        HolterConfig.ACC_THRESHOLD_PERCENTILE.
Proof.
  destruct (process_all HaarLib.lib WaveletProcessor_init (samples_from 0 600))
    as [final |] eqn:E; [| vm_compute in E; discriminate E].
  exists final. split; [reflexivity |].
  destruct (session_threshold HaarLib.lib _ _ E) as [_ Hlate].
  apply Hlate. unfold samples_from. rewrite length_map, length_seq.
  unfold HolterConfig.WINDOW_SIZE. lia.
Defined.
